(** * Symptom classifier: a shallow embedding of the rule-based
      specialist recommender

    The development follows [add_doctor_column.py] and [restructure_csv.py]
    (class [DoctorRecommender], one engine with two rule tables) and
    [restructure_symptom_dataset.py] (class [SymptomDoctorMapper]).

    Python [str] values are modelled by [string]; a character [ascii] stands
    for the code point of the same number (U+0000 to U+00FF).  Python [int]
    values are modelled by [Z].  A [dict] is an association list in insertion
    order with pairwise distinct keys. *)

From Stdlib Require Import String Ascii List ZArith NArith Bool Lia.
Import ListNotations.

Local Open Scope string_scope.
Local Open Scope list_scope.
Local Open Scope Z_scope.

(* ------------------------------------------------------------------ *)
(** ** Python string primitives *)

Module PyStr.

(** [str.isspace] on one character: TAB..CR, FS..US, SPACE, NEL, NBSP.  The
    regular expression class [\s] on [str] patterns is the same set. *)
Definition isspace (c : ascii) : bool :=
  let n := N_of_ascii c in
  ((9 <=? n) && (n <=? 13) || (28 <=? n) && (n <=? 32)
   || (n =? 133) || (n =? 160))%N.

(** [str.lower] on one character: A..Z and the Latin-1 capitals. *)
Definition lower_char (c : ascii) : ascii :=
  let n := N_of_ascii c in
  if ((65 <=? n) && (n <=? 90)
      || (192 <=? n) && (n <=? 222) && negb (n =? 215))%N
  then ascii_of_N (n + 32) else c.

Fixpoint map_chars (f : ascii -> ascii) (s : string) : string :=
  match s with
  | EmptyString => EmptyString
  | String c r => String (f c) (map_chars f r)
  end.

(** [s.lower()] *)
Definition lower (s : string) : string := map_chars lower_char s.

(** [s.replace(a, b)] for one-character [a] and [b]. *)
Definition replace (a b : ascii) (s : string) : string :=
  map_chars (fun c => if Ascii.eqb c a then b else c) s.

(** [c in s] for a character [c]. *)
Fixpoint mem_char (c : ascii) (s : string) : bool :=
  match s with
  | EmptyString => false
  | String d r => Ascii.eqb d c || mem_char c r
  end.

(** [p in s]: [p] occurs in [s] as a contiguous substring. *)
Fixpoint contains (p s : string) : bool :=
  String.prefix p s ||
  match s with
  | EmptyString => false
  | String _ r => contains p r
  end.

Fixpoint lstrip (p : ascii -> bool) (s : string) : string :=
  match s with
  | EmptyString => EmptyString
  | String c r => if p c then lstrip p r else s
  end.

Fixpoint rstrip (p : ascii -> bool) (s : string) : string :=
  match s with
  | EmptyString => EmptyString
  | String c r =>
      match rstrip p r with
      | EmptyString => if p c then EmptyString else String c EmptyString
      | r' => String c r'
      end
  end.

(** [s.strip(chars)], the set [chars] given by its membership test. *)
Definition strip_with (p : ascii -> bool) (s : string) : string :=
  rstrip p (lstrip p s).

(** [s.strip()] *)
Definition strip (s : string) : string := strip_with isspace s.

(** [s.split(sep)] for a one-character separator: always at least one
    piece, empty pieces kept. *)
Fixpoint split (sep : ascii) (s : string) : list string :=
  match s with
  | EmptyString => [EmptyString]
  | String c r =>
      if Ascii.eqb c sep then EmptyString :: split sep r
      else match split sep r with
           | h :: t => String c h :: t
           | [] => [String c EmptyString]
           end
  end.

(** [re.sub(r'[set]+', ' ', s)]: every maximal run of characters of the
    set becomes one space.  [in_run] tells that the previous character
    belonged to the run being replaced. *)
Fixpoint sub_runs_from (p : ascii -> bool) (in_run : bool) (s : string)
  : string :=
  match s with
  | EmptyString => EmptyString
  | String c r =>
      if p c then
        if in_run then sub_runs_from p true r
        else String " " (sub_runs_from p true r)
      else String c (sub_runs_from p false r)
  end.

Definition sub_runs (p : ascii -> bool) (s : string) : string :=
  sub_runs_from p false s.

End PyStr.

(* ------------------------------------------------------------------ *)
(** ** Python dictionaries, insertion ordered *)

Module PyDict.

Section Dict.
Context {V : Type}.

Definition dict := list (string * V).

(** [d[k] = v]: the value is replaced in place when the key exists, the
    item is appended otherwise. *)
Fixpoint set (d : dict) (k : string) (v : V) : dict :=
  match d with
  | [] => [(k, v)]
  | (k', v') :: r =>
      if String.eqb k' k then (k', v) :: r else (k', v') :: set r k v
  end.

(** A dict display [{k1: v1, k2: v2, ...}]: the items are stored left to
    right. *)
Definition display (items : list (string * V)) : dict :=
  fold_left (fun d kv => set d (fst kv) (snd kv)) items [].

Definition keys (d : dict) : list string := map fst d.

(** [d.get(k)] *)
Fixpoint get (d : dict) (k : string) : option V :=
  match d with
  | [] => None
  | (k', v) :: r => if String.eqb k' k then Some v else get r k
  end.

(** [d.get(k, default)] *)
Definition get_default (d : dict) (k : string) (default : V) : V :=
  match get d k with
  | Some v => v
  | None => default
  end.

End Dict.

Arguments dict V : clear implicits.

End PyDict.

(* ------------------------------------------------------------------ *)
(** ** The engine of [DoctorRecommender]

    [add_doctor_column.py] and [restructure_csv.py] share every method; they
    differ in the rule table and in the bonus given to "special
    high-priority" patterns.  Both are parameters of the section. *)

(** One value of [specialist_rules].  The key ['required_combined'] is
    optional and is read with [rules.get('required_combined', False)]. *)
Record Rules : Type := mkRules {
  symptoms : list string;
  priority : Z;
  combined_symptoms : list (list string);
  required_combined : option bool
}.

(** [rules['symptoms']], under a name that the parameter [symptoms] of the
    methods does not hide. *)
Definition get_symptoms (rules : Rules) : list string := symptoms rules.

(** A recorded result: [(final_score, match_count)]. *)
Definition MatchResult : Type := (Z * Z)%type.

Definition is_underscore (c : ascii) : bool := Ascii.eqb c "_".

(** The character set of the first [text.strip(...)] of [extract_symptoms]:
    the double quote (code 34) and the single quote. *)
Definition is_quote (c : ascii) : bool :=
  Ascii.eqb c "034" || Ascii.eqb c "'".

Definition fallback : string := "General Physician".

(** [normalize_text]: lowercase, underscores to one space, whitespace runs
    to one space, strip. *)
Definition normalize_text (text : string) : string :=
  let text := PyStr.lower text in
  let text := PyStr.sub_runs is_underscore text in
  let text := PyStr.sub_runs PyStr.isspace text in
  PyStr.strip text.

(** [nc in ns or ns in nc] *)
Definition related (a b : string) : bool :=
  PyStr.contains a b || PyStr.contains b a.

(** The key of [max]: tuples compare lexicographically. *)
Definition key_lt (a b : MatchResult) : bool :=
  (fst a <? fst b) || ((fst a =? fst b) && (snd a <? snd b)).

(** [max(items, key=...)] on a non-empty sequence [x :: rest]: the running
    best is replaced only by a strictly greater key. *)
Fixpoint max_by_key (best : string * MatchResult)
  (rest : list (string * MatchResult)) : string * MatchResult :=
  match rest with
  | [] => best
  | x :: r =>
      if key_lt (snd best) (snd x) then max_by_key x r
      else max_by_key best r
  end.

Section Engine.

Variable specialist_rules : PyDict.dict Rules.

(** The bonus added for a matched pattern, a function of the normalized
    pattern ("special high-priority symptoms"). *)
Variable bonus : string -> Z.

(** [extract_symptoms]: the comma separated format gives the stripped
    pieces; otherwise every table keyword whose spelling with spaces occurs
    in the lowercased text is collected, in table order. *)
Definition extract_symptoms (text : string) : list string :=
  let text := PyStr.strip_with is_quote text in
  if PyStr.mem_char "," text
     && negb (existsb (fun char => PyStr.mem_char char text)
                ["."; "!"; "?"]%char)
  then map PyStr.strip (PyStr.split "," text)
  else
    let text_lower := PyStr.lower text in
    flat_map
      (fun item : string * Rules =>
         filter
           (fun symptom =>
              PyStr.contains (PyStr.replace "_" " " symptom) text_lower)
           (symptoms (snd item)))
      specialist_rules.

(** [has_combined_symptoms] *)
Definition has_combined_symptoms (symptoms : list string)
  (combined_list : list (list string)) : bool :=
  let normalized_symptoms := map normalize_text symptoms in
  existsb
    (fun combo =>
       let normalized_combo := map normalize_text combo in
       forallb
         (fun nc => existsb (fun ns => related nc ns) normalized_symptoms)
         normalized_combo)
    combined_list.

(** The inner loop over [normalized_symptoms] for one pattern; the first
    match updates the counters and breaks. *)
Fixpoint check_pattern (normalized_pattern : string)
  (normalized_symptoms : list string) (st : Z * Z) : Z * Z :=
  match normalized_symptoms with
  | [] => st
  | norm_symptom :: rest =>
      if related normalized_pattern norm_symptom
      then (fst st + 10 + bonus normalized_pattern, snd st + 1)
      else check_pattern normalized_pattern rest st
  end.

(** The loop over [rules['symptoms']]; the state is [(score, match_count)]. *)
Fixpoint check_individual (patterns : list string)
  (normalized_symptoms : list string) (st : Z * Z) : Z * Z :=
  match patterns with
  | [] => st
  | symptom_pattern :: rest =>
      check_individual rest normalized_symptoms
        (check_pattern (normalize_text symptom_pattern)
           normalized_symptoms st)
  end.

Definition get_required_combined (rules : Rules) : bool :=
  match required_combined rules with
  | Some b => b
  | None => false
  end.

(** One iteration of the scoring loop: [None] when the specialist is
    skipped ([continue]) or has no match, the recorded result otherwise. *)
Definition score_specialist (rules : Rules) (symptoms : list string)
  : option MatchResult :=
  let normalized_symptoms := map normalize_text symptoms in
  let has_combined :=
    has_combined_symptoms symptoms (combined_symptoms rules) in
  let st := if has_combined then (100, 2) else (0, 0) in
  if get_required_combined rules && negb has_combined then None
  else
    let st := check_individual (get_symptoms rules) normalized_symptoms st in
    if snd st >? 0 then
      let priority_weight := 1000 - priority rules * 50 in
      let final_score := fst st + priority_weight in
      Some (final_score, snd st)
    else None.

(** The dictionary [specialist_scores] after the scoring loop. *)
Definition specialist_scores (symptoms : list string)
  : PyDict.dict MatchResult :=
  fold_left
    (fun scores (item : string * Rules) =>
       match score_specialist (snd item) symptoms with
       | Some r => PyDict.set scores (fst item) r
       | None => scores
       end)
    specialist_rules [].

(** [match_symptoms_to_specialist] *)
Definition match_symptoms_to_specialist (symptoms : list string) : string :=
  match symptoms with
  | [] => fallback
  | _ :: _ =>
      match specialist_scores symptoms with
      | [] => fallback
      | x :: rest => fst (max_by_key x rest)
      end
  end.

(** [recommend_doctor], the classifier. *)
Definition recommend_doctor (symptom_text : string) : string :=
  match_symptoms_to_specialist (extract_symptoms symptom_text).

End Engine.

(** A row written by the two [restructure_csv] drivers:
    [{'text': symptom_text, 'doctor': doctor}]. *)
Record OutputRow : Type := mkOutputRow {
  row_text : string;
  row_doctor : string
}.

(** One step of [for row in reader].  [ReaderRaises]: the reader itself
    raises (a malformed file).  [Row cell]: the reader yields a row with
    [cell] under ['text']; [None] stands for a row without a text, for
    which [row['text']] raises [KeyError] (no such column) or is [None] (a
    short row) and the classifier raises on it. *)
Inductive ReaderEvent : Type :=
| ReaderRaises : ReaderEvent
| Row : option string -> ReaderEvent.

(** The input file as the drivers see it: missing, or opened with the
    [fieldnames] of the reader ([None] for an empty file) and the steps of
    the iteration. *)
Inductive InputFile : Type :=
| NotFound : InputFile
| Opened : option (list string) -> list ReaderEvent -> InputFile.

(** How a reading loop ends, with the rows and the counter at that
    point: an exception leaves the [try] block, or the reader is
    exhausted. *)
Inductive LoopEnd : Type :=
| Raised : list OutputRow -> Z -> LoopEnd
| Exhausted : list OutputRow -> Z -> LoopEnd.

(** The reader event of a row with a text. *)
Definition text_row (symptom_text : string) : ReaderEvent :=
  Row (Some symptom_text).

(* ------------------------------------------------------------------ *)
(** ** [add_doctor_column.py]: the reference rule table *)

Module AddDoctorColumn.

Definition specialist_rules_items : list (string * Rules) :=
  [
    ("Cardiologist",
     mkRules
       ["chest_pain"; "chest pain"; "breathlessness"; "palpitations";
        "irregular_heartbeat"; "irregular heartbeat"; "fast_heart_rate";
        "fast heart rate"]
       1
       [["chest_pain"; "breathlessness"];
         ["chest_pain"; "sweating"];
         ["chest pain"; "breathlessness"];
         ["chest pain"; "sweating"];
         ["breathlessness"; "sweating"; "chest"]]
       (Some true));
    ("Neurologist",
     mkRules
       ["headache"; "altered_sensorium"; "loss_of_balance";
        "spinning_movements"; "dizziness"; "seizures";
        "weakness_of_one_body_side"; "unsteadiness"; "slurred_speech"; "coma";
        "altered sensorium"; "loss of balance"]
       2
       [["headache"; "altered_sensorium"];
         ["weakness"; "altered_sensorium"];
         ["spinning_movements"; "loss_of_balance"]]
       None);
    ("Pulmonologist",
     mkRules
       ["cough"; "mucoid_sputum"; "rusty_sputum"; "blood_in_sputum"; "phlegm";
        "mucoid sputum"; "rusty sputum"; "blood in sputum"; "mucus";
        "respiratory"]
       2
       [["blood_in_sputum"; "cough"];
         ["rusty_sputum"; "cough"];
         ["phlegm"; "cough"];
         ["breathlessness"; "cough"];
         ["high_fever"; "cough"]]
       None);
    ("Gastroenterologist",
     mkRules
       ["vomiting"; "diarrhea"; "diarrhoea"; "constipation"; "abdominal_pain";
        "stomach_pain"; "acidity"; "indigestion"; "bloody_stool";
        "loss_of_appetite"; "nausea"; "yellowing_of_eyes"; "yellowish_skin";
        "dark_urine"; "swelling_of_stomach"; "distention_of_abdomen";
        "fluid_overload"; "abdominal pain"; "stomach pain"; "bloody stool";
        "loss of appetite"; "yellowing of eyes"; "yellowish skin";
        "dark urine"; "dehydration"; "sunken_eyes";
        "history_of_alcohol_consumption"; "acute_liver_failure";
        "stomach_bleeding"; "pain_during_bowel_movements";
        "pain_in_anal_region"; "irritation_in_anus"; "ulcers_on_tongue"]
       4
       [["vomiting"; "diarrhea"];
         ["vomiting"; "diarrhoea"];
         ["abdominal_pain"; "vomiting"];
         ["stomach_pain"; "acidity"];
         ["stomach_pain"; "vomiting"];
         ["acidity"; "chest_pain"]]
       None);
    ("Dermatologist",
     mkRules
       ["skin_rash"; "itching"; "skin_discoloration"; "pus_filled_pimples";
        "blackheads"; "skin_peeling"; "nodal_skin_eruptions";
        "dischromic__patches"; "blister"; "red_sore_around_nose";
        "yellow_crust_ooze"; "scurring"; "red_spots_over_body"; "skin rash";
        "pus filled pimples"; "skin peeling"]
       7
       []
       None);
    ("ENT",
     mkRules
       ["continuous_sneezing"; "watering_from_eyes"; "throat_irritation";
        "sinus_pressure"; "runny_nose"; "congestion"; "loss_of_smell";
        "patches_in_throat"; "shivering"; "continuous sneezing";
        "watering from eyes"; "throat irritation"; "sinus pressure";
        "runny nose"; "loss of smell"; "patches in throat"]
       8
       [["continuous_sneezing"; "watering_from_eyes"]]
       None);
    ("Orthopedic",
     mkRules
       ["joint_pain"; "neck_pain"; "knee_pain"; "hip_pain"; "stiff_neck";
        "muscle_weakness"; "swelling_joints"; "back_pain"; "painful_walking";
        "muscle_wasting"; "movement_stiffness"; "joint pain"; "neck pain";
        "knee pain"; "hip pain"; "stiff neck"; "muscle weakness";
        "swelling joints"; "back pain"; "painful walking";
        "pain behind the eyes"]
       9
       []
       None);
    ("Endocrinologist",
     mkRules
       ["excessive_hunger"; "polyuria"; "increased_appetite";
        "irregular_sugar_level"; "weight_gain"; "cold_hands";
        "enlarged_thyroid"; "obesity"; "restlessness"; "lethargy";
        "excessive hunger"; "increased appetite"; "irregular sugar level";
        "weight gain"; "cold hands"; "enlarged thyroid"; "diabetes";
        "thyroid"]
       6
       [["excessive_hunger"; "polyuria"];
         ["excessive_hunger"; "increased_appetite"];
         ["irregular_sugar_level"; "polyuria"]]
       None);
    ("Urologist",
     mkRules
       ["burning_micturition"; "bladder_discomfort"; "foul_smell_of_urine";
        "continuous_feel_of_urine"; "burning micturition";
        "bladder discomfort"; "foul smell of urine";
        "continuous feel of urine"; "urine"; "urinary"; "kidney"; "ureteral"]
       5
       [["burning_micturition"; "bladder_discomfort"]]
       None);
    ("Gynecologist",
     mkRules
       ["abnormal_menstruation"; "abnormal menstruation"]
       10
       []
       None);
    ("Psychiatrist",
     mkRules
       ["anxiety"; "depression"; "irritability"]
       11
       []
       None);
    ("General Physician",
     mkRules
       ["fever"; "fatigue"; "malaise"; "weight_loss"; "high_fever";
        "mild_fever"; "chills"; "weight loss"; "high fever"; "mild fever";
        "swelled_lymph_nodes"; "muscle_pain"; "weakness";
        "blurred_and_distorted_vision"; "drying_and_tingling_lips";
        "extra_marital_contacts"; "mood_swings"]
       12
       []
       None)
  ].

(** [self.specialist_rules = { ... }] *)
Definition specialist_rules : PyDict.dict Rules :=
  PyDict.display specialist_rules_items.


(** Lines 258-259: the very high weight of the critical respiratory
    patterns. *)
Definition bonus (normalized_pattern : string) : Z :=
  if PyStr.contains "blood in sputum" normalized_pattern
     || PyStr.contains "rusty sputum" normalized_pattern
  then 150 else 0.

Definition extract_symptoms := extract_symptoms specialist_rules.
Definition score_specialist := score_specialist bonus.
Definition specialist_scores := specialist_scores specialist_rules bonus.
Definition match_symptoms_to_specialist :=
  match_symptoms_to_specialist specialist_rules bonus.
Definition recommend_doctor := recommend_doctor specialist_rules bonus.

End AddDoctorColumn.

(* ------------------------------------------------------------------ *)
(** ** [restructure_csv.py]: the revised rule table *)

Module RestructureCsv.

Definition specialist_rules_items : list (string * Rules) :=
  [
    ("Cardiologist",
     mkRules
       ["chest_pain"; "chest pain"; "breathlessness"; "palpitations";
        "irregular_heartbeat"; "irregular heartbeat"; "fast_heart_rate";
        "fast heart rate"; "sweating"]
       1
       [["chest_pain"; "breathlessness"];
         ["chest_pain"; "sweating"];
         ["chest pain"; "breathlessness"];
         ["chest pain"; "sweating"];
         ["breathlessness"; "sweating"; "chest"];
         ["vomiting"; "breathlessness"; "sweating"; "chest_pain"]]
       (Some true));
    ("Neurologist",
     mkRules
       ["headache"; "altered_sensorium"; "loss_of_balance";
        "spinning_movements"; "dizziness"; "seizures";
        "weakness_of_one_body_side"; "unsteadiness"; "slurred_speech"; "coma";
        "altered sensorium"; "loss of balance"; "weakness of one body side";
        "memory"; "memory_loss"; "alzheimer"; "dementia"; "tremors";
        "visual_disturbances"]
       2
       [["headache"; "altered_sensorium"];
         ["weakness"; "altered_sensorium"];
         ["weakness_of_one_body_side"];
         ["spinning_movements"; "loss_of_balance"];
         ["vomiting"; "headache"; "altered_sensorium"];
         ["vomiting"; "headache"; "weakness_of_one_body_side"]]
       None);
    ("Pulmonologist",
     mkRules
       ["cough"; "mucoid_sputum"; "rusty_sputum"; "blood_in_sputum"; "phlegm";
        "mucoid sputum"; "rusty sputum"; "blood in sputum"; "mucus";
        "respiratory"; "breathlessness with cough"]
       2
       [["blood_in_sputum"; "cough"];
         ["rusty_sputum"; "cough"];
         ["phlegm"; "cough"];
         ["breathlessness"; "cough"];
         ["high_fever"; "cough"; "phlegm"];
         ["cough"; "chest_pain"; "phlegm"];
         ["family_history"; "cough"];
         ["mucoid_sputum"; "cough"]]
       None);
    ("Gastroenterologist",
     mkRules
       ["vomiting"; "diarrhea"; "diarrhoea"; "constipation"; "abdominal_pain";
        "stomach_pain"; "acidity"; "indigestion"; "bloody_stool";
        "loss_of_appetite"; "nausea"; "yellowing_of_eyes"; "yellowish_skin";
        "dark_urine"; "swelling_of_stomach"; "distention_of_abdomen";
        "fluid_overload"; "abdominal pain"; "stomach pain"; "bloody stool";
        "loss of appetite"; "yellowing of eyes"; "yellowish skin";
        "dark urine"; "dehydration"; "sunken_eyes";
        "history_of_alcohol_consumption"; "acute_liver_failure";
        "stomach_bleeding"; "pain_during_bowel_movements";
        "pain_in_anal_region"; "irritation_in_anus"; "ulcers_on_tongue";
        "internal_itching"; "passage_of_gases"; "gastritis"; "gnawing";
        "belly_pain"; "toxic_look_(typhos)"]
       4
       [["vomiting"; "diarrhea"];
         ["vomiting"; "diarrhoea"];
         ["abdominal_pain"; "vomiting"];
         ["stomach_pain"; "acidity"];
         ["stomach_pain"; "vomiting"];
         ["yellowish_skin"; "abdominal_pain"];
         ["yellowish_skin"; "yellowing_of_eyes"];
         ["constipation"; "pain_during_bowel_movements"]]
       None);
    ("Dermatologist",
     mkRules
       ["skin_rash"; "itching"; "skin_discoloration"; "pus_filled_pimples";
        "blackheads"; "skin_peeling"; "nodal_skin_eruptions";
        "dischromic__patches"; "blister"; "red_sore_around_nose";
        "yellow_crust_ooze"; "scurring"; "red_spots_over_body"; "skin rash";
        "pus filled pimples"; "skin peeling"; "small_dents_in_nails";
        "inflammatory_nails"; "mosquito"; "bites"; "hive"]
       7
       [["skin_rash"; "joint_pain"]]
       None);
    ("ENT",
     mkRules
       ["continuous_sneezing"; "watering_from_eyes"; "throat_irritation";
        "sinus_pressure"; "runny_nose"; "congestion"; "loss_of_smell";
        "patches_in_throat"; "shivering"; "continuous sneezing";
        "watering from eyes"; "throat irritation"; "sinus pressure";
        "runny nose"; "loss of smell"; "patches in throat";
        "chills with sneezing"]
       8
       [["continuous_sneezing"; "watering_from_eyes"];
         ["continuous_sneezing"; "chills"]]
       None);
    ("Orthopedic",
     mkRules
       ["joint_pain"; "neck_pain"; "knee_pain"; "hip_pain"; "stiff_neck";
        "muscle_weakness"; "swelling_joints"; "back_pain"; "painful_walking";
        "muscle_wasting"; "movement_stiffness"; "joint pain"; "neck pain";
        "knee pain"; "hip pain"; "stiff neck"; "muscle weakness";
        "swelling joints"; "back pain"; "painful walking"]
       9
       [["joint_pain"; "stiff_neck"];
         ["muscle_wasting"]]
       None);
    ("Endocrinologist",
     mkRules
       ["excessive_hunger"; "polyuria"; "increased_appetite";
        "irregular_sugar_level"; "weight_gain"; "cold_hands";
        "enlarged_thyroid"; "obesity"; "restlessness"; "lethargy";
        "excessive hunger"; "increased appetite"; "irregular sugar level";
        "weight gain"; "cold hands"; "enlarged thyroid"; "diabetes";
        "thyroid"; "fast_heart_rate"; "irritability"; "abnormal_menstruation";
        "swollen"; "brittle"; "varicose"]
       3
       [["excessive_hunger"; "polyuria"];
         ["excessive_hunger"; "increased_appetite"];
         ["irregular_sugar_level"; "polyuria"];
         ["fast_heart_rate"; "excessive_hunger"; "restlessness"];
         ["fast_heart_rate"; "excessive_hunger"; "irritability"];
         ["restlessness"; "sweating"; "diarrhoea"; "fast_heart_rate"];
         ["weight_loss"; "fast_heart_rate"; "excessive_hunger"]]
       None);
    ("Urologist",
     mkRules
       ["burning_micturition"; "bladder_discomfort"; "foul_smell_of_urine";
        "continuous_feel_of_urine"; "burning micturition";
        "bladder discomfort"; "foul smell of urine";
        "continuous feel of urine"; "urine"; "urinary"; "kidney";
        "spotting__urination"]
       5
       [["burning_micturition"; "bladder_discomfort"];
         ["spotting__urination"; "burning_micturition"]]
       None);
    ("Psychiatrist",
     mkRules
       ["anxiety"; "depression"; "mood_swings"; "loss of interest";
        "social withdrawal"; "delusions"]
       11
       []
       None);
    ("General Physician",
     mkRules
       ["fever"; "fatigue"; "malaise"; "weight_loss"; "high_fever";
        "mild_fever"; "chills"; "weight loss"; "high fever"; "mild fever";
        "swelled_lymph_nodes"; "muscle_pain"; "weakness";
        "blurred_and_distorted_vision"; "drying_and_tingling_lips";
        "extra_marital_contacts"; "pain_behind_the_eyes"; "varicose veins";
        "swollen legs"; "protruding"]
       12
       []
       None)
  ].

(** [self.specialist_rules = { ... }] *)
Definition specialist_rules : PyDict.dict Rules :=
  PyDict.display specialist_rules_items.


(** Lines 283-288: three independent bonuses. *)
Definition bonus (normalized_pattern : string) : Z :=
  (if PyStr.contains "blood in sputum" normalized_pattern
      || PyStr.contains "rusty sputum" normalized_pattern
   then 150 else 0)
  + (if PyStr.contains "weakness of one body side" normalized_pattern
     then 150 else 0)
  + (if PyStr.contains "altered sensorium" normalized_pattern
     then 100 else 0).

Definition extract_symptoms := extract_symptoms specialist_rules.
Definition score_specialist := score_specialist bonus.
Definition specialist_scores := specialist_scores specialist_rules bonus.
Definition match_symptoms_to_specialist :=
  match_symptoms_to_specialist specialist_rules bonus.
Definition recommend_doctor := recommend_doctor specialist_rules bonus.

(** The reading loop of [restructure_csv]; the state is
    [(rows, input_row_count)].  The counter is incremented before the text
    is read and classified. *)
Fixpoint read_loop (events : list ReaderEvent) (rows : list OutputRow)
  (input_row_count : Z) : LoopEnd :=
  match events with
  | [] => Exhausted rows input_row_count
  | ReaderRaises :: _ => Raised rows input_row_count
  | Row cell :: rest =>
      let input_row_count := input_row_count + 1 in
      match cell with
      | None => Raised rows input_row_count
      | Some symptom_text =>
          let doctor := recommend_doctor symptom_text in
          let new_row := mkOutputRow symptom_text doctor in
          read_loop rest (rows ++ [new_row]) input_row_count
      end
  end.

(** What [restructure_csv] returns: [False] from an [except] clause, or
    [True] with the rows written and the outcome of the final test
    [input_row_count == output_row_count] ([true] prints that all rows are
    preserved, [false] prints the mismatch warning). *)
Inductive Report : Type :=
| ReturnedFalse : Report
| ReturnedTrue : list OutputRow -> bool -> Report.

(** [restructure_csv]; [write_succeeds] tells whether the second [try]
    block, which writes the output file, ends without (true) or with an
    exception. *)
Definition restructure_csv (input : InputFile) (write_succeeds : bool)
  : Report :=
  match input with
  | NotFound => ReturnedFalse
  | Opened None _ => ReturnedFalse
  | Opened (Some fieldnames) events =>
      if negb (existsb (String.eqb "text") fieldnames) then ReturnedFalse
      else
        match read_loop events [] 0 with
        | Raised _ _ => ReturnedFalse
        | Exhausted rows input_row_count =>
            if write_succeeds then
              let output_row_count := Z.of_nat (List.length rows) in
              ReturnedTrue rows (input_row_count =? output_row_count)
            else ReturnedFalse
        end
  end.

End RestructureCsv.

(* ------------------------------------------------------------------ *)
(** ** [restructure_symptom_dataset.py]: class [SymptomDoctorMapper] *)

Module SymptomDoctorMapper.

(** One value of [doctor_rules]; ['combined_required'] is optional and is
    read with [rules.get('combined_required', [])]. *)
Record DoctorRules : Type := mkDoctorRules {
  keywords : list string;
  combined_required : option (list (list string));
  priority : Z
}.

Definition doctor_rules_items : list (string * DoctorRules) :=
  [
    ("Gastroenterologist",
     mkDoctorRules
       ["vomiting"; "abdominal_pain"; "diarrhoea"; "diarrhea"; "constipation";
        "yellowish_skin"; "nausea"; "loss_of_appetite"; "yellowing_of_eyes";
        "stomach_pain"; "indigestion"; "acidity"; "ulcers"; "bloody_stool";
        "internal_itching"; "passage_of_gases"; "fluid_overload";
        "distention_of_abdomen"; "swelling_of_stomach"; "toxic_look";
        "belly_pain"; "dark_urine"; "dehydration"; "sunken_eyes";
        "history_of_alcohol_consumption"; "acute_liver_failure";
        "stomach_bleeding"; "pain_during_bowel_movements";
        "pain_in_anal_region"; "irritation_in_anus"; "liver"; "digestive";
        "bowel"; "burning_micturition"; "bladder_discomfort";
        "foul_smell_of_urine"; "continuous_feel_of_urine"; "urinary"; "urine"]
       None
       3);
    ("Cardiologist",
     mkDoctorRules
       ["chest_pain"; "palpitations"; "fast_heart_rate"; "heart"]
       (Some [["chest_pain"; "breathlessness"];
               ["chest_pain"; "sweating"];
               ["sweating"; "chest_pain"]])
       1);
    ("Neurologist",
     mkDoctorRules
       ["headache"; "altered_sensorium"; "weakness_of_one_body_side";
        "spinning_movements"; "loss_of_balance"; "unsteadiness"; "dizziness";
        "lack_of_concentration"; "visual_disturbances";
        "blurred_and_distorted_vision"; "slurred_speech"; "coma"; "seizures";
        "alzheimer"; "memory"; "brain"]
       None
       2);
    ("Dermatologist",
     mkDoctorRules
       ["skin_rash"; "itching"; "pus_filled_pimples"; "blackheads";
        "scurring"; "blister"; "red_sore_around_nose"; "yellow_crust_ooze";
        "skin_peeling"; "dischromic__patches"; "nodal_skin_eruptions";
        "silver_like_dusting"; "inflammatory_nails"; "small_dents_in_nails";
        "red_spots_over_body"; "skin"; "rash"; "mosquito"; "bites"; "hive"]
       None
       5);
    ("Pulmonologist",
     mkDoctorRules
       ["cough"; "breathlessness"; "phlegm"; "blood_in_sputum";
        "mucoid_sputum"; "rusty_sputum"; "malaise"; "family_history";
        "respiratory"; "lung"; "mucus"; "wheezing"]
       None
       2);
    ("Orthopedic",
     mkDoctorRules
       ["joint_pain"; "neck_pain"; "knee_pain"; "hip_joint_pain";
        "swelling_joints"; "painful_walking"; "stiff_neck";
        "movement_stiffness"; "muscle_weakness"; "back_pain";
        "weakness_in_limbs"; "muscle_wasting"; "hip_pain"]
       None
       6);
    ("ENT",
     mkDoctorRules
       ["continuous_sneezing"; "watering_from_eyes"; "throat_irritation";
        "sinus_pressure"; "runny_nose"; "congestion"; "loss_of_smell";
        "patches_in_throat"; "redness_of_eyes"; "muscle_wasting";
        "extra_marital_contacts"; "throat"; "sinus"]
       None
       7);
    ("General Physician",
     mkDoctorRules
       ["fatigue"; "fever"; "high_fever"; "mild_fever"; "chills";
        "weight_loss"; "restlessness"; "lethargy"; "malaise";
        "swelled_lymph_nodes"; "muscle_pain"; "weakness"; "obesity";
        "polyuria"; "excessive_hunger"; "increased_appetite";
        "irregular_sugar_level"; "cold_hands"; "enlarged_thyroid"; "diabetes";
        "thyroid"; "varicose"; "veins"; "swollen"; "shivering"; "sweating";
        "mood_swings"; "depression"; "irritability"; "anxiety"; "legs";
        "protruding"; "calf"]
       None
       10);
    ("Gynecologist",
     mkDoctorRules
       ["abnormal_menstruation"; "irregular_periods"; "menstruation";
        "pelvic_pain"; "vaginal"]
       None
       4);
    ("Ophthalmologist",
     mkDoctorRules
       ["eye_redness"; "eye_pain"; "vision_problems"; "blurred_vision";
        "visual_disturbances"]
       None
       8);
    ("Dentist",
     mkDoctorRules
       ["ulcers_on_tongue"; "tooth_pain"; "gum"; "mouth_ulcers"; "dental"]
       None
       9);
    ("Psychiatrist",
     mkDoctorRules
       ["severe_depression"; "severe_anxiety"; "mood_swings"; "mental";
        "psychological"]
       None
       11)
  ].

(** [self.doctor_rules = { ... }] *)
Definition doctor_rules : PyDict.dict DoctorRules :=
  PyDict.display doctor_rules_items.

(** [extract_symptoms]; [assign_doctor] calls it and never reads the
    result. *)
Definition extract_symptoms (text : string) : list string :=
  let text := PyStr.strip_with is_quote text in
  if PyStr.mem_char "," text
     && negb (existsb (fun char => PyStr.mem_char char text)
                ["."; "!"; "?"]%char)
  then map PyStr.strip (PyStr.split "," text)
  else [text].

(** [check_combined_symptoms] *)
Definition check_combined_symptoms (text_lower : string)
  (combined_patterns : list (list string)) : bool :=
  existsb
    (fun pattern_set =>
       forallb
         (fun keyword => PyStr.contains (normalize_text keyword) text_lower)
         pattern_set)
    combined_patterns.

(** The loop over [rules['keywords']]; the state is
    [(score, match_count)]. *)
Fixpoint check_keywords (keywords : list string) (text_lower : string)
  (st : Z * Z) : Z * Z :=
  match keywords with
  | [] => st
  | keyword :: rest =>
      let keyword_normalized := normalize_text keyword in
      check_keywords rest text_lower
        (if PyStr.contains keyword_normalized text_lower
         then (fst st + 10, snd st + 1) else st)
  end.

(** One iteration of the scoring loop of [assign_doctor]. *)
Definition score_doctor (doctor : string) (rules : DoctorRules)
  (text_lower : string) : option MatchResult :=
  let combined_patterns :=
    match combined_required rules with
    | Some l => l
    | None => []
    end in
  let checked :=
    match combined_patterns with
    | [] => Some (0, 0)
    | _ :: _ =>
        if check_combined_symptoms text_lower combined_patterns
        then Some (200, 3)
        else if String.eqb doctor "Cardiologist" then None
             else Some (0, 0)
    end in
  match checked with
  | None => None
  | Some st =>
      let st := check_keywords (keywords rules) text_lower st in
      if snd st >? 0 then
        let priority_weight := 1000 - priority rules * 50 in
        let final_score := fst st + priority_weight in
        Some (final_score, snd st)
      else None
  end.

Definition doctor_scores (text_lower : string) : PyDict.dict MatchResult :=
  fold_left
    (fun scores (item : string * DoctorRules) =>
       match score_doctor (fst item) (snd item) text_lower with
       | Some r => PyDict.set scores (fst item) r
       | None => scores
       end)
    doctor_rules [].

(** [assign_doctor]: the chain of priority rules, then the scoring loop. *)
Definition assign_doctor (symptom_text : string) : string :=
  let text_lower := normalize_text symptom_text in
  let has := fun k => PyStr.contains k text_lower in
  if has "cough"
     && (has "phlegm" || has "sputum" || has "blood in sputum"
         || has "blood_in_sputum" || has "rusty sputum"
         || has "rusty_sputum" || has "mucoid sputum"
         || has "mucoid_sputum")
  then "Pulmonologist"
  else if (has "chest pain" || has "chest_pain")
          && (has "breathlessness" || has "sweating")
          && negb (has "cough" && (has "phlegm" || has "sputum"))
  then "Cardiologist"
  else if (has "yellowish skin" || has "yellowing of eyes"
           || has "yellowish_skin" || has "yellowing_of_eyes")
          && (has "abdominal" || has "stomach" || has "vomiting"
              || has "nausea")
  then "Gastroenterologist"
  else if has "cough" && has "breathlessness"
  then "Pulmonologist"
  else if has "headache"
          && (has "weakness of one body side"
              || has "weakness_of_one_body_side"
              || has "altered sensorium" || has "altered_sensorium")
  then "Neurologist"
  else if (has "continuous sneezing" || has "continuous_sneezing")
          && (has "watering from eyes" || has "watering_from_eyes")
  then "ENT"
  else if (has "joint pain" || has "joint_pain")
          && ((has "neck pain" || has "neck_pain") || has "stiff")
  then "Orthopedic"
  else if (has "burning micturition" || has "burning_micturition")
          && (has "bladder" || has "urine")
  then "Gastroenterologist"
  else if (has "irregular sugar" || has "irregular_sugar_level")
          && (has "polyuria" || has "excessive hunger"
              || has "excessive_hunger")
  then "General Physician"
  else if has "abnormal menstruation" || has "abnormal_menstruation"
  then "Gynecologist"
  else if (has "ulcers on tongue" || has "ulcers_on_tongue")
          && (has "stomach" || has "abdominal" || has "acidity"
              || has "vomiting")
  then "Gastroenterologist"
  else if (has "high fever" || has "high_fever")
          && (has "skin rash" || has "skin_rash" || has "red spots"
              || has "red_spots_over_body" || has "blister")
  then "Dermatologist"
  else if (has "veins" || has "varicose")
          && (has "swollen" || has "legs" || has "protruding")
  then "General Physician"
  else if (has "vomiting" || has "diarrhoea" || has "nausea")
          && (has "fever" || has "headache")
          && negb (has "cough" || has "phlegm" || has "sputum")
          && negb (has "altered sensorium" || has "altered_sensorium"
                   || has "spinning" || has "weakness of one body side"
                   || has "weakness_of_one_body_side")
  then "Gastroenterologist"
  else
    match doctor_scores text_lower with
    | [] => "General Physician"
    | x :: rest => fst (max_by_key x rest)
    end.

(** [ALLOWED_DOCTORS] *)
Definition ALLOWED_DOCTORS : list string :=
  ["General Physician"; "Gynecologist"; "Orthopedic"; "ENT";
   "Ophthalmologist"; "Dentist"; "Neurologist"; "Cardiologist";
   "Gastroenterologist"; "Pulmonologist"; "Dermatologist"; "Psychiatrist"].

(** The reading loop of [restructure_csv]; the state is
    [(rows, rows_processed)].  The counter is incremented after the row is
    appended. *)
Fixpoint read_loop (events : list ReaderEvent) (rows : list OutputRow)
  (rows_processed : Z) : LoopEnd :=
  match events with
  | [] => Exhausted rows rows_processed
  | ReaderRaises :: _ => Raised rows rows_processed
  | Row None :: _ => Raised rows rows_processed
  | Row (Some symptom_text) :: rest =>
      let doctor := assign_doctor symptom_text in
      read_loop rest (rows ++ [mkOutputRow symptom_text doctor])
        (rows_processed + 1)
  end.

(** The loop that fills [doctor_counts]:
    [doctor_counts[doctor] = doctor_counts.get(doctor, 0) + 1]. *)
Fixpoint count_loop (rows : list OutputRow) (doctor_counts : PyDict.dict Z)
  : PyDict.dict Z :=
  match rows with
  | [] => doctor_counts
  | row :: rest =>
      let doctor := row_doctor row in
      count_loop rest
        (PyDict.set doctor_counts doctor
           (PyDict.get_default doctor_counts doctor 0 + 1))
  end.

(** How [restructure_csv] ends: in its [except] clause, or at the end of
    the [try] block with the rows written, [rows_processed] and
    [doctor_counts]. *)
Inductive Run : Type :=
| Aborted : Run
| Finished : list OutputRow -> Z -> PyDict.dict Z -> Run.

(** [restructure_csv]; the whole body is one [try] block, and the fields
    of the reader are not checked.  [write_succeeds] tells whether writing
    the output file ends without an exception. *)
Definition restructure_csv (input : InputFile) (write_succeeds : bool)
  : Run :=
  match input with
  | NotFound => Aborted
  | Opened _ events =>
      match read_loop events [] 0 with
      | Raised _ _ => Aborted
      | Exhausted rows rows_processed =>
          if write_succeeds
          then Finished rows rows_processed (count_loop rows [])
          else Aborted
      end
  end.

End SymptomDoctorMapper.

(* ------------------------------------------------------------------ *)
(** ** Vocabulary of the statements *)

(** Every character of [s] satisfies [p]. *)
Fixpoint all_chars (p : ascii -> bool) (s : string) : bool :=
  match s with
  | EmptyString => true
  | String c r => p c && all_chars p r
  end.

(** Empty or whitespace-only text. *)
Definition whitespace_only (s : string) : bool := all_chars PyStr.isspace s.

Definition first_char (s : string) : option ascii :=
  match s with
  | EmptyString => None
  | String c _ => Some c
  end.

Fixpoint last_char (s : string) : option ascii :=
  match s with
  | EmptyString => None
  | String c EmptyString => Some c
  | String _ r => last_char r
  end.

(** [out] neither starts nor ends with a character of the set [p]. *)
Definition clean_ends (p : ascii -> bool) (out : string) : Prop :=
  (forall c, first_char out = Some c -> p c = false) /\
  (forall c, last_char out = Some c -> p c = false).

(** [out] is [piece] without its leading and trailing characters of the
    set [p]. *)
Definition stripped_of (p : ascii -> bool) (piece out : string) : Prop :=
  exists l r,
    piece = (l ++ out ++ r)%string /\
    all_chars p l = true /\ all_chars p r = true /\ clean_ends p out.

(** [sep.join(pieces)] for a one-character separator. *)
Fixpoint join (sep : ascii) (pieces : list string) : string :=
  match pieces with
  | [] => EmptyString
  | [x] => x
  | x :: rest => (x ++ String sep (join sep rest))%string
  end.

Fixpoint count_char (c : ascii) (s : string) : nat :=
  match s with
  | EmptyString => O
  | String d r => if Ascii.eqb d c then S (count_char c r) else count_char c r
  end.

(** The format test of [extract_symptoms] on the text without quotes. *)
Definition structured (t : string) : Prop :=
  PyStr.mem_char "," t = true /\
  PyStr.mem_char "." t = false /\
  PyStr.mem_char "!" t = false /\
  PyStr.mem_char "?" t = false.

(** Pairwise distinct strings, as a test. *)
Fixpoint distinct (l : list string) : bool :=
  match l with
  | [] => true
  | x :: r => negb (existsb (String.eqb x) r) && distinct r
  end.

(** The keyword loop alone, started from zero: the score it adds and the
    number of keywords it counts (the individual-keyword match count). *)
Definition individual_matches (bonus : string -> Z) (rules : Rules)
  (symptoms : list string) : Z * Z :=
  check_individual bonus (get_symptoms rules)
    (map normalize_text symptoms) (0, 0).

(** The pattern has a match among the normalized symptoms. *)
Definition pattern_matched (normalized_symptoms : list string)
  (symptom_pattern : string) : bool :=
  existsb (related (normalize_text symptom_pattern)) normalized_symptoms.

(** What one keyword adds to the score: nothing, or 10 and its bonus. *)
Definition contribution (bonus : string -> Z)
  (normalized_symptoms : list string) (symptom_pattern : string) : Z :=
  if pattern_matched normalized_symptoms symptom_pattern
  then 10 + bonus (normalize_text symptom_pattern) else 0.

Fixpoint sumZ (l : list Z) : Z :=
  match l with
  | [] => 0
  | x :: r => x + sumZ r
  end.

(** Every phrase a rule mentions: its keywords and the members of its
    combinations. *)
Definition phrases (rules : Rules) : list string :=
  get_symptoms rules ++ concat (combined_symptoms rules).

(** No extracted symptom contains, or is contained in, a phrase of the
    table (both normalized): the input is unrecognizable. *)
Definition unrecognized (table : PyDict.dict Rules)
  (symptoms : list string) : bool :=
  forallb
    (fun s =>
       forallb
         (fun item : string * Rules =>
            forallb
              (fun ph => negb (related (normalize_text ph) (normalize_text s)))
              (phrases (snd item)))
         table)
    symptoms.

(** Table conditions used by the general lemmas: every keyword shows a
    character that is neither whitespace nor an underscore, and no
    combination is empty. *)
Definition blank (c : ascii) : bool := PyStr.isspace c || is_underscore c.

Definition visible (s : string) : bool := negb (all_chars blank s).

Definition keywords_visible (table : PyDict.dict Rules) : bool :=
  forallb (fun item : string * Rules =>
             forallb visible (get_symptoms (snd item)))
    table.

Definition combinations_nonempty (table : list (string * Rules)) : bool :=
  forallb (fun item : string * Rules =>
             forallb (fun combo : list string =>
                        match combo with [] => false | _ :: _ => true end)
               (combined_symptoms (snd item)))
    table.

(** No two adjacent characters of the set [p]; [prev] tells that the
    character before [s] is in the set. *)
Fixpoint no_adjacent (p : ascii -> bool) (prev : bool) (s : string) : bool :=
  match s with
  | EmptyString => true
  | String c r =>
      if p c then negb prev && no_adjacent p true r
      else no_adjacent p false r
  end.

(** A character as [normalize_text] leaves it: lowercased, no underscore,
    and no whitespace other than the space. *)
Definition normal_char (c : ascii) : bool :=
  Ascii.eqb (PyStr.lower_char c) c
  && negb (is_underscore c)
  && (negb (PyStr.isspace c) || Ascii.eqb c " ").

Definition visible_end (o : option ascii) : bool :=
  match o with
  | Some c => negb (PyStr.isspace c)
  | None => true
  end.

(** A text in normal form: normal characters, single spaces between words,
    no space at either end. *)
Definition is_normal (s : string) : bool :=
  all_chars normal_char s
  && no_adjacent PyStr.isspace false s
  && visible_end (first_char s)
  && visible_end (last_char s).

(** The number of rows whose doctor is [doctor]. *)
Fixpoint count_doctor (doctor : string) (doctors : list string) : Z :=
  match doctors with
  | [] => 0
  | d :: rest =>
      (if String.eqb d doctor then 1 else 0) + count_doctor doctor rest
  end.

(** *** The statements of the specification that the code is compared with *)

Module Spec.

(** "Strip one layer of leading/trailing quote characters". *)
Definition strip_one_layer (s : string) : string :=
  let s := match s with
           | String c r => if is_quote c then r else s
           | EmptyString => s
           end in
  let fix drop_last (s : string) : string :=
    match s with
    | EmptyString => EmptyString
    | String c EmptyString => if is_quote c then EmptyString else s
    | String c r => String c (drop_last r)
    end in
  drop_last s.

Definition nonempty (s : string) : bool :=
  match s with EmptyString => false | String _ _ => true end.

(** "split on commas, trim each piece, and return the resulting non-empty
    pieces in order". *)
Definition structured_pieces (text : string) : list string :=
  filter nonempty (map PyStr.strip (PyStr.split "," (strip_one_layer text))).

(** "containing no recognizable tokens": no phrase of the table occurs in
    the text, both normalized. *)
Definition no_keyword_occurs (table : PyDict.dict Rules) (text : string)
  : bool :=
  forallb
    (fun item : string * Rules =>
       forallb
         (fun ph =>
            negb (PyStr.contains (normalize_text ph) (normalize_text text)))
         (phrases (snd item)))
    table.

(** The three conditions of the construction-time validation: no
    duplicated category name, positive priorities, no empty combination. *)
Definition valid_items (items : list (string * Rules)) : bool :=
  distinct (map fst items)
  && forallb (fun item : string * Rules => 0 <? priority (snd item)) items
  && combinations_nonempty items.

End Spec.

(** The same three conditions on the items of [doctor_rules]. *)
Definition valid_doctor_items
  (items : list (string * SymptomDoctorMapper.DoctorRules)) : bool :=
  distinct (map fst items)
  && forallb
       (fun item : string * SymptomDoctorMapper.DoctorRules =>
          0 <? SymptomDoctorMapper.priority (snd item))
       items
  && forallb
       (fun item : string * SymptomDoctorMapper.DoctorRules =>
          match SymptomDoctorMapper.combined_required (snd item) with
          | Some combos =>
              forallb (fun combo : list string =>
                         match combo with [] => false | _ :: _ => true end)
                combos
          | None => true
          end)
       items.

(** The items of [specialist_scores] when no key is written twice: one per
    specialist that records a result, in table order. *)
Definition recorded {B : Type} (score : string * B -> option MatchResult)
  (table : list (string * B)) : list (string * MatchResult) :=
  flat_map
    (fun item =>
       match score item with
       | Some r => [(fst item, r)]
       | None => []
       end)
    table.

(** The scoring loop with the step as a parameter. *)
Definition scoring_loop {B : Type} (score : string * B -> option MatchResult)
  (table : list (string * B)) (scores : PyDict.dict MatchResult)
  : PyDict.dict MatchResult :=
  fold_left
    (fun scores item =>
       match score item with
       | Some r => PyDict.set scores (fst item) r
       | None => scores
       end)
    table scores.

(* ================================================================== *)
(** * Properties *)

(** ** Facts about the string primitives *)

Module PyStrFacts.
Import PyStr.

Lemma all_chars_app p (a b : string) :
  all_chars p (a ++ b)%string = all_chars p a && all_chars p b.
Proof.
  induction a as [|c a IH]; simpl; [reflexivity|].
  now rewrite IH, andb_assoc.
Qed.

Lemma lstrip_spec p s :
  exists l, s = (l ++ lstrip p s)%string /\ all_chars p l = true /\
            (forall c, first_char (lstrip p s) = Some c -> p c = false).
Proof.
  induction s as [|c r (l & Hs & Hl & Hf)]; simpl.
  - exists EmptyString; repeat split; intros; discriminate.
  - destruct (p c) eqn:Hc.
    + exists (String c l); simpl; rewrite Hc, Hl; repeat split; auto.
      congruence.
    + exists EmptyString; simpl; repeat split.
      intros x [= <-]; exact Hc.
Qed.

Lemma rstrip_spec p s :
  exists r, s = (rstrip p s ++ r)%string /\ all_chars p r = true.
Proof.
  induction s as [|c s (r & Hs & Hr)]; simpl.
  - exists EmptyString; split; reflexivity.
  - destruct (rstrip p s) as [|d t] eqn:E; simpl in Hs.
    + subst s. destruct (p c) eqn:Hc.
      * exists (String c r); simpl; rewrite Hc, Hr; auto.
      * exists r; simpl; auto.
    + exists r; simpl; split; [congruence|exact Hr].
Qed.

Lemma rstrip_last p s c : last_char (rstrip p s) = Some c -> p c = false.
Proof.
  induction s as [|d s IH]; simpl; [discriminate|].
  destruct (rstrip p s) as [|e t] eqn:E.
  - destruct (p d) eqn:Hd; simpl; [discriminate|].
    intros [= <-]; exact Hd.
  - intros H; apply IH; exact H.
Qed.

Lemma rstrip_first p s c :
  first_char (rstrip p s) = Some c -> first_char s = Some c.
Proof.
  destruct s as [|d s]; simpl; [discriminate|].
  destruct (rstrip p s); [destruct (p d)|]; simpl; auto; discriminate.
Qed.

(** [strip_with] removes exactly the leading and trailing characters of the
    set. *)
Lemma strip_with_spec p s : stripped_of p s (strip_with p s).
Proof.
  unfold strip_with.
  destruct (lstrip_spec p s) as (l & Hs & Hl & Hf).
  destruct (rstrip_spec p (lstrip p s)) as (r & Hs' & Hr).
  exists l, r; repeat split; auto.
  - rewrite <- Hs'; exact Hs.
  - intros c Hc; apply Hf, (rstrip_first p); exact Hc.
  - intros c; apply rstrip_last.
Qed.

Lemma split_not_nil sep s : split sep s <> [].
Proof.
  destruct s as [|c r]; simpl; [discriminate|].
  destruct (Ascii.eqb c sep); [discriminate|].
  destruct (split sep r); discriminate.
Qed.

Lemma join_cons_char sep c h t :
  join sep (String c h :: t) = String c (join sep (h :: t)).
Proof. destruct t; reflexivity. Qed.

(** Joining the pieces of a split gives the text back. *)
Lemma join_split sep s : join sep (split sep s) = s.
Proof.
  induction s as [|c r IH]; simpl; [reflexivity|].
  destruct (Ascii.eqb c sep) eqn:E.
  - apply Ascii.eqb_eq in E; subst c.
    destruct (split sep r) as [|h t] eqn:S.
    + now destruct (split_not_nil sep r).
    + change (join sep (EmptyString :: h :: t))
        with (String sep (join sep (h :: t))).
      now rewrite IH.
  - destruct (split sep r) as [|h t] eqn:S.
    + now destruct (split_not_nil sep r).
    + now rewrite join_cons_char, IH.
Qed.

(** No piece of a split holds the separator. *)
Lemma split_no_sep sep s :
  Forall (fun piece => mem_char sep piece = false) (split sep s).
Proof.
  induction s as [|c r IH]; simpl.
  - constructor; [reflexivity|constructor].
  - destruct (Ascii.eqb c sep) eqn:E.
    + constructor; [reflexivity|exact IH].
    + destruct (split sep r) as [|h t].
      * constructor; [simpl; now rewrite E|constructor].
      * inversion IH; subst.
        constructor; [simpl; now rewrite E|assumption].
Qed.

(** One piece more than there are separators: empty pieces are kept. *)
Lemma split_length sep s :
  List.length (split sep s) = S (count_char sep s).
Proof.
  induction s as [|c r IH]; simpl; [reflexivity|].
  destruct (Ascii.eqb c sep); simpl.
  - now rewrite IH.
  - destruct (split sep r) as [|h t] eqn:S; simpl in *; [discriminate|].
    exact IH.
Qed.

Lemma prefix_all_chars q p s :
  String.prefix p s = true -> all_chars q s = true -> all_chars q p = true.
Proof.
  revert s; induction p as [|a p IH]; intros s; simpl; [auto|].
  destruct s as [|b s]; simpl; [discriminate|].
  destruct (ascii_dec a b) as [->|]; intros Hp Hq; [|discriminate Hp].
  apply andb_true_iff in Hq as [Hb Hs].
  rewrite Hb; simpl; eauto.
Qed.

(** A substring of a text whose characters all satisfy [q] has the same
    property. *)
Lemma contains_all_chars q p s :
  contains p s = true -> all_chars q s = true -> all_chars q p = true.
Proof.
  induction s as [|c r IH]; simpl; intros H Hq.
  - rewrite orb_false_r in H.
    apply (prefix_all_chars q p EmptyString); [exact H|reflexivity].
  - apply orb_true_iff in H as [H|H].
    + apply (prefix_all_chars q p (String c r)); [exact H|exact Hq].
    + apply andb_true_iff in Hq as [_ Hq]; auto.
Qed.

Lemma all_chars_mem q c s :
  all_chars q s = true -> q c = false -> mem_char c s = false.
Proof.
  intros Hs Hc; induction s as [|d r IH]; simpl in *; [reflexivity|].
  apply andb_true_iff in Hs as [Hd Hr].
  rewrite (IH Hr), orb_false_r.
  destruct (Ascii.eqb d c) eqn:E; [|reflexivity].
  apply Ascii.eqb_eq in E; congruence.
Qed.

Lemma all_chars_lstrip q p s :
  all_chars q s = true -> all_chars q (lstrip p s) = true.
Proof.
  induction s as [|c r IH]; simpl; [auto|].
  intros H; destruct (p c); [|exact H].
  apply andb_true_iff in H as [_ H]; auto.
Qed.

Lemma all_chars_rstrip q p s :
  all_chars q s = true -> all_chars q (rstrip p s) = true.
Proof.
  intros H; destruct (rstrip_spec p s) as (r & Hs & _).
  rewrite Hs, all_chars_app in H.
  now apply andb_true_iff in H as [H _].
Qed.

Lemma isspace_lower c : isspace c = true -> lower_char c = c.
Proof.
  destruct c as [[] [] [] [] [] [] [] []]; vm_compute;
    intros H; try reflexivity; discriminate H.
Qed.

Lemma whitespace_lower s :
  all_chars isspace s = true -> all_chars isspace (lower s) = true.
Proof.
  unfold lower; induction s as [|c r IH]; simpl; [auto|].
  intros H; apply andb_true_iff in H as [Hc Hr].
  now rewrite (isspace_lower c Hc), Hc, IH.
Qed.

(** A keyword spelled with spaces is whitespace only when the keyword has
    nothing but whitespace and underscores. *)
Lemma replace_whitespace kw :
  all_chars isspace (replace "_" " " kw) = true ->
  all_chars blank kw = true.
Proof.
  unfold replace; induction kw as [|c r IH]; simpl; [auto|].
  unfold blank at 1, is_underscore at 1.
  destruct (Ascii.eqb c "_") eqn:E; intros H;
    apply andb_true_iff in H as [Hc Hr]; rewrite (IH Hr).
  - now rewrite orb_true_r.
  - now rewrite Hc.
Qed.

End PyStrFacts.

(** ** Facts about dictionaries *)

Module PyDictFacts.
Import PyDict.

Section Facts.
Context {V : Type}.
Implicit Types (d : dict V) (k : string) (v : V).

Lemma set_fresh d k v : ~ In k (keys d) -> set d k v = d ++ [(k, v)].
Proof.
  induction d as [|[k' v'] d IH]; simpl; intros H; [reflexivity|].
  destruct (String.eqb k' k) eqn:E.
  - apply String.eqb_eq in E; tauto.
  - f_equal; apply IH; tauto.
Qed.

Lemma keys_set d k v k0 :
  In k0 (keys (set d k v)) <-> k0 = k \/ In k0 (keys d).
Proof.
  induction d as [|[k' v'] d IH]; simpl.
  - intuition congruence.
  - destruct (String.eqb k' k) eqn:E; simpl.
    + apply String.eqb_eq in E; subst; intuition congruence.
    + rewrite IH; intuition congruence.
Qed.

Lemma set_NoDup d k v : NoDup (keys d) -> NoDup (keys (set d k v)).
Proof.
  induction d as [|[k' v'] d IH]; simpl; intros H.
  - constructor; [intros []|constructor].
  - inversion H as [|? ? Hn Hd]; subst.
    destruct (String.eqb k' k) eqn:E; simpl.
    + constructor; assumption.
    + constructor; [|auto].
      fold (keys (set d k v)); rewrite keys_set.
      apply String.eqb_neq in E; intuition congruence.
Qed.

Lemma fold_set_NoDup (items : list (string * V)) d :
  NoDup (keys d) ->
  NoDup (keys (fold_left (fun d kv => set d (fst kv) (snd kv)) items d)).
Proof.
  revert d; induction items as [|kv items IH]; simpl; intros d H; [exact H|].
  apply IH, set_NoDup, H.
Qed.

Lemma fold_set_keys (items : list (string * V)) d k :
  In k (keys (fold_left (fun d kv => set d (fst kv) (snd kv)) items d))
  <-> In k (keys d) \/ In k (map fst items).
Proof.
  revert d; induction items as [|kv items IH]; simpl; intros d; [tauto|].
  rewrite IH, keys_set; intuition congruence.
Qed.

(** A dict display has pairwise distinct keys: the keys written in it. *)
Lemma display_NoDup (items : list (string * V)) : NoDup (keys (display items)).
Proof. apply fold_set_NoDup; constructor. Qed.

Lemma display_keys (items : list (string * V)) k :
  In k (keys (display items)) <-> In k (map fst items).
Proof. unfold display; rewrite fold_set_keys; simpl; tauto. Qed.

End Facts.

(** With distinct table keys no assignment of the scoring loop overwrites
    another: the dictionary lists the recorded results in table order. *)
Lemma scoring_loop_recorded {B} (score : string * B -> option MatchResult)
  (table : list (string * B)) (scores : dict MatchResult) :
  NoDup (map fst table) ->
  (forall item, In item table -> ~ In (fst item) (keys scores)) ->
  scoring_loop score table scores = scores ++ recorded score table.
Proof.
  unfold scoring_loop, recorded.
  revert scores; induction table as [|a table IH]; simpl; intros scores Hd Hf.
  - now rewrite app_nil_r.
  - inversion Hd as [|? ? Hn Hd']; subst.
    destruct (score a) as [r|] eqn:E.
    + rewrite (set_fresh scores (fst a) r) by (apply Hf; auto).
      rewrite IH; [now rewrite <- app_assoc|assumption|].
      intros item Hi; unfold keys; rewrite map_app, in_app_iff; simpl.
      intros [H|[H|[]]]; [apply (Hf item); auto|].
      apply Hn; rewrite H; apply in_map, Hi.
    + apply IH; [assumption|]. intros item Hi; apply Hf; auto.
Qed.

(** An item of [recorded] comes from one table entry; the entries before
    and after it give the items before and after. *)
Lemma recorded_split {B} (score : string * B -> option MatchResult)
  (table : list (string * B)) pre x post :
  recorded score table = pre ++ x :: post ->
  exists before item after,
    table = before ++ item :: after /\
    fst item = fst x /\ score item = Some (snd x) /\
    recorded score before = pre /\ recorded score after = post.
Proof.
  unfold recorded.
  revert pre; induction table as [|a table IH]; simpl; intros pre H.
  - destruct pre; discriminate.
  - destruct (score a) as [r|] eqn:E; simpl in H.
    + destruct pre as [|y pre]; simpl in H; injection H as Hx Hr.
      * exists [], a, table; subst x; simpl; auto.
      * destruct (IH pre Hr) as (b & i & af & -> & Hi & Hs & Hb & Ha).
        exists (a :: b), i, af; simpl; rewrite E, Hb; subst y; auto.
    + destruct (IH pre H) as (b & i & af & -> & Hi & Hs & Hb & Ha).
      exists (a :: b), i, af; simpl; rewrite E; auto.
Qed.


End PyDictFacts.

(** ** Selection by [max] *)

Lemma key_lt_true a b :
  key_lt a b = true <->
  fst a < fst b \/ (fst a = fst b /\ snd a < snd b).
Proof.
  unfold key_lt.
  rewrite orb_true_iff, andb_true_iff, !Z.ltb_lt, Z.eqb_eq; tauto.
Qed.

Lemma key_lt_false a b :
  key_lt a b = false <->
  fst b < fst a \/ (fst a = fst b /\ snd b <= snd a).
Proof.
  unfold key_lt.
  rewrite orb_false_iff, andb_false_iff, !Z.ltb_ge, Z.eqb_neq; lia.
Qed.

Lemma key_lt_trans a b c :
  key_lt a b = true -> key_lt b c = true -> key_lt a c = true.
Proof. rewrite !key_lt_true; lia. Qed.

Lemma key_le_lt_trans a b c :
  key_lt b a = false -> key_lt b c = true -> key_lt a c = true.
Proof. rewrite key_lt_false, !key_lt_true; lia. Qed.

(** [max] returns the first item whose key no other item exceeds: the
    items before it have strictly smaller keys, the items after it have keys
    that are not greater. *)
Lemma max_by_key_spec rest : forall best,
  exists pre post,
    best :: rest = pre ++ max_by_key best rest :: post /\
    (forall y, In y pre ->
               key_lt (snd y) (snd (max_by_key best rest)) = true) /\
    (forall y, In y post ->
               key_lt (snd (max_by_key best rest)) (snd y) = false).
Proof.
  induction rest as [|x rest IH]; intros best; simpl.
  - exists [], []; simpl; repeat split; intros y [].
  - destruct (key_lt (snd best) (snd x)) eqn:E.
    + destruct (IH x) as (pre & post & Heq & Hpre & Hpost).
      exists (best :: pre), post; repeat split.
      * simpl; now rewrite <- Heq.
      * intros y [<-|Hy]; [|auto].
        destruct pre as [|z pre]; simpl in Heq; injection Heq as Hz Hr.
        -- now rewrite <- Hz.
        -- apply (key_lt_trans _ (snd x)); [exact E|].
           apply Hpre; left; auto.
      * exact Hpost.
    + destruct (IH best) as (pre & post & Heq & Hpre & Hpost).
      destruct pre as [|z pre]; simpl in Heq; injection Heq as Hz Hr.
      * exists [], (x :: rest); repeat split.
        -- simpl; now rewrite <- Hz.
        -- intros y [].
        -- rewrite <- Hz; intros y [<-|Hy]; [exact E|].
           rewrite Hz; apply Hpost; rewrite <- Hr; exact Hy.
      * subst z. exists (best :: x :: pre), post; repeat split.
        -- simpl; do 2 f_equal; exact Hr.
        -- intros y [<-|[<-|Hy]].
           ++ apply Hpre; left; auto.
           ++ apply (key_le_lt_trans _ (snd best)); [exact E|].
              apply Hpre; left; auto.
           ++ apply Hpre; right; auto.
        -- exact Hpost.
Qed.

(** ** The scoring loop of [DoctorRecommender] *)

Section EngineFacts.

Variable specialist_rules : PyDict.dict Rules.
Variable bonus : string -> Z.

(** The inner loop in closed form. *)
Lemma check_pattern_closed np ns st :
  check_pattern bonus np ns st =
  if existsb (related np) ns
  then (fst st + 10 + bonus np, snd st + 1) else st.
Proof.
  induction ns as [|s ns IH]; simpl; [reflexivity|].
  destruct (related np s); simpl; [reflexivity|exact IH].
Qed.

(** The keyword loop in closed form: each keyword of the list adds its
    contribution once, and counts once when it is matched. *)
Lemma check_individual_closed kws ns : forall st,
  check_individual bonus kws ns st =
  (fst st + sumZ (map (contribution bonus ns) kws),
   snd st + Z.of_nat (List.length (filter (pattern_matched ns) kws))).
Proof.
  induction kws as [|kw kws IH]; intros [s m].
  - simpl; f_equal; lia.
  - cbn [check_individual map filter sumZ].
    rewrite IH, check_pattern_closed.
    change (existsb (related (normalize_text kw)) ns)
      with (pattern_matched ns kw).
    assert (Hc : contribution bonus ns kw =
                 if pattern_matched ns kw
                 then 10 + bonus (normalize_text kw) else 0) by reflexivity.
    rewrite Hc.
    destruct (pattern_matched ns kw);
      cbn [fst snd List.length]; rewrite ?Nat2Z.inj_succ; f_equal; lia.
Qed.

Lemma specialist_scores_recorded symptoms :
  NoDup (PyDict.keys specialist_rules) ->
  specialist_scores specialist_rules bonus symptoms =
  recorded (fun item => score_specialist bonus (snd item) symptoms)
    specialist_rules.
Proof.
  intros Hd.
  change (specialist_scores specialist_rules bonus symptoms)
    with (scoring_loop
            (fun item => score_specialist bonus (snd item) symptoms)
            specialist_rules []).
  rewrite PyDictFacts.scoring_loop_recorded; [reflexivity|exact Hd|].
  intros item _ [].
Qed.

End EngineFacts.

(** ** Scoring: the keyword loop *)

Section Scoring.

Variable bonus : string -> Z.

(** C8.  Each keyword adds to [score] and [match_count] at most once per
    call.  When [s] is the first extracted symptom related to the keyword
    (none of the symptoms [pre] before it is), the inner loop adds 10 and the
    keyword's bonus to the score and 1 to the match count, whatever symptoms
    [post] follow: they are not examined, and the loop goes on with the next
    keyword.  Over a whole keyword list the score grows by the sum of the
    contributions, one per keyword, and the count by the number of matched
    keywords. *)
Theorem keyword_contributes_once (kw : string) (kws pre post : list string)
  (s : string) (st : Z * Z) :
  (forall x, In x pre -> related (normalize_text kw) x = false) ->
  related (normalize_text kw) s = true ->
  let np := normalize_text kw in
  let ns := pre ++ s :: post in
  check_pattern bonus np ns st = (fst st + 10 + bonus np, snd st + 1) /\
  check_individual bonus (kw :: kws) ns st =
    check_individual bonus kws ns (fst st + 10 + bonus np, snd st + 1) /\
  check_individual bonus (kw :: kws) ns st =
    (fst st + sumZ (map (contribution bonus ns) (kw :: kws)),
     snd st
     + Z.of_nat (List.length (filter (pattern_matched ns) (kw :: kws)))).
Proof.
  intros Hpre Hs np ns.
  assert (H : check_pattern bonus np ns st
              = (fst st + 10 + bonus np, snd st + 1)).
  { subst ns; induction pre as [|x pre IH]; simpl.
    - fold np in Hs; now rewrite Hs.
    - fold np in Hpre; rewrite (Hpre x) by (left; reflexivity).
      apply IH; intros y Hy; apply Hpre; right; exact Hy. }
  split; [exact H|split].
  - simpl; fold np; now rewrite H.
  - apply check_individual_closed.
Qed.

(** A keyword that no extracted symptom is related to leaves the counters
    as they are. *)
Lemma keyword_without_match (kw : string) (ns : list string) (st : Z * Z) :
  (forall x, In x ns -> related (normalize_text kw) x = false) ->
  check_pattern bonus (normalize_text kw) ns st = st.
Proof.
  intros H; induction ns as [|x ns IH]; simpl; [reflexivity|].
  rewrite (H x) by (left; reflexivity).
  apply IH; intros y Hy; apply H; right; exact Hy.
Qed.

(** The keyword loop adds the same amounts from every start. *)
Lemma check_individual_shift kws ns st :
  check_individual bonus kws ns st =
  (fst st + fst (check_individual bonus kws ns (0, 0)),
   snd st + snd (check_individual bonus kws ns (0, 0))).
Proof. rewrite !check_individual_closed; simpl; f_equal. Qed.

(** A recorded result is the combination part (100 and 2 when a
    combination is covered), the keyword part and the priority weight. *)
Lemma score_specialist_some rules symptoms f m :
  score_specialist bonus rules symptoms = Some (f, m) ->
  let hc := has_combined_symptoms symptoms (combined_symptoms rules) in
  let im := individual_matches bonus rules symptoms in
  f = (if hc then 100 else 0) + fst im + (1000 - priority rules * 50) /\
  m = (if hc then 2 else 0) + snd im /\
  0 < m /\
  (get_required_combined rules = true -> hc = true).
Proof.
  intros H hc im.
  unfold score_specialist in H; cbv zeta in H; fold hc in H.
  destruct (get_required_combined rules && negb hc) eqn:Hreq;
    [discriminate|].
  rewrite check_individual_shift in H.
  change (check_individual bonus (get_symptoms rules)
            (map normalize_text symptoms) (0, 0)) with im in H.
  cbn [fst snd] in H.
  destruct (snd (if hc then (100, 2) else (0, 0)) + snd im >? 0) eqn:Hpos;
    [|discriminate].
  apply Z.gtb_lt in Hpos.
  assert (E : (fst (if hc then (100, 2) else (0, 0)) + fst im
               + (1000 - priority rules * 50),
               snd (if hc then (100, 2) else (0, 0)) + snd im) = (f, m))
    by congruence.
  apply pair_equal_spec in E as [Hf Hm].
  assert (Hc : fst (if hc then (100, 2) else (0, 0))
               = (if hc then 100 else 0) /\
               snd (if hc then (100, 2) else (0, 0))
               = (if hc then 2 else 0))
    by (destruct hc; split; reflexivity).
  destruct Hc as [Hc1 Hc2]; rewrite Hc1 in Hf; rewrite Hc2 in Hm, Hpos.
  repeat split; try lia.
  intros Hr; rewrite Hr in Hreq; destruct hc; [reflexivity|discriminate].
Qed.

End Scoring.

(** A blood-in-sputum keyword met by the second of three symptoms, the
    third one related as well: counted once, 10 and the bonus 150. *)
Lemma keyword_contributes_once_witness :
  let np := normalize_text "blood_in_sputum" in
  let ns := ["cough"] ++ "blood in sputum" :: ["sputum"] in
  let st := (10, 1) in
  check_pattern AddDoctorColumn.bonus np ns st = (170, 2) /\
  check_individual AddDoctorColumn.bonus ["blood_in_sputum"; "phlegm"] ns st =
    check_individual AddDoctorColumn.bonus ["phlegm"] ns (170, 2) /\
  check_individual AddDoctorColumn.bonus ["blood_in_sputum"; "phlegm"] ns st =
    (fst st
     + sumZ (map (contribution AddDoctorColumn.bonus ns)
               ["blood_in_sputum"; "phlegm"]),
     snd st
     + Z.of_nat
         (List.length
            (filter (pattern_matched ns) ["blood_in_sputum"; "phlegm"]))).
Proof.
  apply (keyword_contributes_once AddDoctorColumn.bonus "blood_in_sputum"
           ["phlegm"] ["cough"] ["sputum"] "blood in sputum" (10, 1)).
  - intros x [<-|[]]; vm_compute; reflexivity.
  - vm_compute; reflexivity.
Defined.

(** ** Priority and evidence *)

(** C4, as the code has it.  When [A] has the lower priority number, both
    specialists record a result, and they have the same evidence (the same
    combination status and the same keyword part: equal individual-keyword
    match counts and equal keyword scores, bonuses included), the final
    score of [A] is the higher one, by 50 for each step of priority, and the
    match counts are equal. *)
Theorem lower_priority_wins_on_equal_evidence (bonus : string -> Z)
  (A B : Rules) (symptoms : list string) (fa ma fb mb : Z) :
  priority A < priority B ->
  score_specialist bonus A symptoms = Some (fa, ma) ->
  score_specialist bonus B symptoms = Some (fb, mb) ->
  has_combined_symptoms symptoms (combined_symptoms A)
  = has_combined_symptoms symptoms (combined_symptoms B) ->
  individual_matches bonus A symptoms = individual_matches bonus B symptoms ->
  fb < fa /\ fa - fb = 50 * (priority B - priority A) /\ ma = mb.
Proof.
  intros Hp HA HB Hc Hi.
  apply score_specialist_some in HA as (Hfa & Hma & _ & _).
  apply score_specialist_some in HB as (Hfb & Hmb & _ & _).
  rewrite Hc, Hi in Hfa, Hma.
  repeat split; lia.
Qed.

(** With the reference table: a headache and nausea give Neurologist
    (priority 2) and Gastroenterologist (priority 4) one keyword each. *)
Lemma lower_priority_wins_on_equal_evidence_witness :
  exists A B,
    PyDict.get AddDoctorColumn.specialist_rules "Neurologist" = Some A /\
    PyDict.get AddDoctorColumn.specialist_rules "Gastroenterologist"
    = Some B /\
    810 < 910 /\ 910 - 810 = 50 * (priority B - priority A) /\ 1 = 1.
Proof.
  eexists; eexists.
  split; [vm_compute; reflexivity|].
  split; [vm_compute; reflexivity|].
  apply (lower_priority_wins_on_equal_evidence AddDoctorColumn.bonus _ _
           ["headache"; "nausea"] 910 1 810 1);
    vm_compute; reflexivity.
Defined.

(** C4 as stated fails on the reference table.  For the symptoms below,
    Gastroenterologist (priority 4) and Urologist (priority 5) both record
    a result with four individual keyword matches each, yet the lower
    priority number has the lower final score: Urologist also covers a
    combination. *)
Lemma lower_priority_can_score_worse :
  let symptoms :=
    AddDoctorColumn.extract_symptoms
      "burning_micturition, bladder_discomfort, constipation, indigestion, nausea, dehydration" in
  exists A B,
    PyDict.get AddDoctorColumn.specialist_rules "Gastroenterologist"
    = Some A /\
    PyDict.get AddDoctorColumn.specialist_rules "Urologist" = Some B /\
    priority A < priority B /\
    snd (individual_matches AddDoctorColumn.bonus A symptoms) = 4 /\
    snd (individual_matches AddDoctorColumn.bonus B symptoms) = 4 /\
    AddDoctorColumn.score_specialist A symptoms = Some (840, 4) /\
    AddDoctorColumn.score_specialist B symptoms = Some (890, 6) /\
    840 < 890.
Proof.
  eexists; eexists.
  split; [vm_compute; reflexivity|].
  split; [vm_compute; reflexivity|].
  repeat split; vm_compute; reflexivity.
Qed.

(** C10.  Both spellings of a phrase are keywords and normalize to the same
    string, so one extracted symptom is counted once for each spelling: the
    single symptom [chest_pain] adds 20 to the score of Cardiologist and 2
    to its match count, 10 and 1 for the keyword [chest_pain] and again for
    the keyword [chest pain].  In a full run, [chest_pain, breathlessness]
    gives Cardiologist 100 for the combination, 30 for three keywords and
    the priority weight 950. *)
Theorem one_symptom_counted_for_both_spellings :
  normalize_text "chest_pain" = normalize_text "chest pain" /\
  (exists rules,
     PyDict.get AddDoctorColumn.specialist_rules "Cardiologist" = Some rules /\
     In "chest_pain" (get_symptoms rules) /\
     In "chest pain" (get_symptoms rules) /\
     individual_matches AddDoctorColumn.bonus rules ["chest_pain"] = (20, 2) /\
     AddDoctorColumn.score_specialist rules
       (AddDoctorColumn.extract_symptoms "chest_pain, breathlessness")
     = Some (1080, 5)) /\
  (exists rules,
     PyDict.get RestructureCsv.specialist_rules "Cardiologist" = Some rules /\
     individual_matches RestructureCsv.bonus rules ["chest_pain"] = (20, 2)) /\
  check_pattern AddDoctorColumn.bonus (normalize_text "chest_pain")
    [normalize_text "chest_pain"] (0, 0) = (10, 1) /\
  check_pattern AddDoctorColumn.bonus (normalize_text "chest pain")
    [normalize_text "chest_pain"] (10, 1) = (20, 2).
Proof.
  split; [reflexivity|].
  split; [eexists; split; [vm_compute; reflexivity|]|].
  { repeat split; try (vm_compute; reflexivity);
      simpl; auto. }
  split; [eexists; split; vm_compute; reflexivity|].
  split; vm_compute; reflexivity.
Qed.

(** ** Selection and exclusion *)

Lemma keys_unique {V} (d : PyDict.dict V) k v1 v2 :
  NoDup (PyDict.keys d) -> In (k, v1) d -> In (k, v2) d -> v1 = v2.
Proof.
  induction d as [|[k' v'] d IH]; simpl; intros Hd H1 H2; [contradiction|].
  inversion Hd as [|? ? Hn Hd']; subst.
  destruct H1 as [H1|H1], H2 as [H2|H2].
  - congruence.
  - injection H1 as -> ->.
    destruct Hn; apply (in_map fst) in H2; exact H2.
  - injection H2 as -> ->.
    destruct Hn; apply (in_map fst) in H1; exact H1.
  - eauto.
Qed.

Section Selection.

Variable specialist_rules : PyDict.dict Rules.
Variable bonus : string -> Z.

Hypothesis keys_distinct : NoDup (PyDict.keys specialist_rules).


(** C2.  A specialist that requires a combination and has none covered
    is never the answer: the fallback, or the name of another table entry,
    is returned.  This holds whether or not the input holds keywords of
    that specialist. *)
Theorem must_have_combination_exclusion (name : string) (rules : Rules)
  (text : string) :
  In (name, rules) specialist_rules ->
  get_required_combined rules = true ->
  has_combined_symptoms (extract_symptoms specialist_rules text)
    (combined_symptoms rules) = false ->
  name <> fallback ->
  recommend_doctor specialist_rules bonus text <> name /\
  (recommend_doctor specialist_rules bonus text = fallback \/
   exists other,
     In other specialist_rules /\ fst other <> name /\
     recommend_doctor specialist_rules bonus text = fst other).
Proof.
  intros Hin Hreq Hcomb Hname.
  unfold recommend_doctor, match_symptoms_to_specialist.
  remember (extract_symptoms specialist_rules text) as syms eqn:Es.
  assert (Hfb : fallback <> name /\
                (fallback = fallback \/
                 exists other,
                   In other specialist_rules /\ fst other <> name /\
                   fallback = fst other))
    by (split; [congruence|left; reflexivity]).
  clear Es; destruct syms as [|s0 syms]; [exact Hfb|].
  rewrite (specialist_scores_recorded _ _ _ keys_distinct).
  destruct (recorded _ specialist_rules) as [|x rest] eqn:E; [exact Hfb|].
  destruct (max_by_key_spec rest x) as (pre & post & Heq & _ & _).
  rewrite <- E in Heq.
  destruct (PyDictFacts.recorded_split _ _ _ _ _ Heq)
    as (before & winner & after & Ht & Hn & Hw & _ & _).
  assert (Hwin : In winner specialist_rules)
    by (rewrite Ht; apply in_elt).
  assert (Hdiff : fst winner <> name).
  { intros Heq'. destruct winner as [n r]; simpl in Heq'; subst n.
    assert (r = rules) by (eapply keys_unique; eauto); subst r.
    cbn [snd] in Hw; unfold score_specialist in Hw.
    rewrite Hcomb, Hreq in Hw; discriminate. }
  rewrite <- Hn.
  split; [exact Hdiff|right; exists winner; auto].
Qed.

End Selection.

(** The two tables of [DoctorRecommender] are dict displays: their keys are
    pairwise distinct. *)
Lemma AddDoctorColumn_keys_distinct :
  NoDup (PyDict.keys AddDoctorColumn.specialist_rules).
Proof. apply PyDictFacts.display_NoDup. Qed.

Lemma RestructureCsv_keys_distinct :
  NoDup (PyDict.keys RestructureCsv.specialist_rules).
Proof. apply PyDictFacts.display_NoDup. Qed.


(** Chest pain alone covers no combination of Cardiologist; with a headache
    the answer is Neurologist. *)
Lemma must_have_combination_exclusion_witness :
  AddDoctorColumn.recommend_doctor "chest_pain, headache" <> "Cardiologist" /\
  (AddDoctorColumn.recommend_doctor "chest_pain, headache" = fallback \/
   exists other,
     In other AddDoctorColumn.specialist_rules /\
     fst other <> "Cardiologist" /\
     AddDoctorColumn.recommend_doctor "chest_pain, headache" = fst other).
Proof.
  assert (Hin : exists rules,
             In ("Cardiologist", rules) AddDoctorColumn.specialist_rules /\
             get_required_combined rules = true /\
             has_combined_symptoms
               (AddDoctorColumn.extract_symptoms "chest_pain, headache")
               (combined_symptoms rules) = false).
  { eexists; split; [vm_compute; left; reflexivity|].
    split; vm_compute; reflexivity. }
  destruct Hin as (rules & Hin & Hreq & Hcomb).
  apply (must_have_combination_exclusion AddDoctorColumn.specialist_rules
           AddDoctorColumn.bonus AddDoctorColumn_keys_distinct
           "Cardiologist" rules "chest_pain, headache" Hin Hreq Hcomb).
  vm_compute; discriminate.
Defined.

(** ** Inputs that resolve to the fallback *)

Lemma filter_none {A} (p : A -> bool) l :
  (forall x, In x l -> p x = false) -> filter p l = [].
Proof.
  induction l as [|a l IH]; simpl; intros H; [reflexivity|].
  rewrite (H a) by (left; reflexivity).
  apply IH; intros x Hx; apply H; right; exact Hx.
Qed.

Lemma flat_map_none {A B} (f : A -> list B) l :
  (forall x, In x l -> f x = []) -> flat_map f l = [].
Proof.
  induction l as [|a l IH]; simpl; intros H; [reflexivity|].
  rewrite (H a) by (left; reflexivity); simpl.
  apply IH; intros x Hx; apply H; right; exact Hx.
Qed.

Lemma scoring_loop_none {B} (score : string * B -> option MatchResult)
  table scores :
  (forall item, In item table -> score item = None) ->
  scoring_loop score table scores = scores.
Proof.
  unfold scoring_loop; revert scores.
  induction table as [|a table IH]; simpl; intros scores H; [reflexivity|].
  rewrite (H a) by (left; reflexivity).
  apply IH; intros x Hx; apply H; right; exact Hx.
Qed.

Section Fallback.

Variable specialist_rules : PyDict.dict Rules.
Variable bonus : string -> Z.

(** Nothing is extracted from an empty or whitespace-only text. *)
Lemma extract_symptoms_blank text :
  keywords_visible specialist_rules = true ->
  whitespace_only text = true ->
  extract_symptoms specialist_rules text = [].
Proof.
  intros Hv Hw; unfold extract_symptoms.
  set (t := PyStr.strip_with is_quote text).
  assert (Ht : all_chars PyStr.isspace t = true)
    by (apply PyStrFacts.all_chars_rstrip, PyStrFacts.all_chars_lstrip, Hw).
  rewrite (PyStrFacts.all_chars_mem PyStr.isspace "," t Ht eq_refl).
  cbn [andb].
  apply flat_map_none; intros item Hi.
  apply filter_none; intros kw Hk.
  destruct (PyStr.contains _ _) eqn:E; [|reflexivity].
  apply (PyStrFacts.contains_all_chars PyStr.isspace) in E;
    [|apply PyStrFacts.whitespace_lower, Ht].
  apply PyStrFacts.replace_whitespace in E.
  unfold keywords_visible in Hv.
  rewrite forallb_forall in Hv; specialize (Hv item Hi).
  rewrite forallb_forall in Hv; specialize (Hv kw Hk).
  unfold visible in Hv; rewrite E in Hv; discriminate.
Qed.

Lemma check_individual_none kws ns st :
  (forall kw x, In kw kws -> In x ns ->
                related (normalize_text kw) x = false) ->
  check_individual bonus kws ns st = st.
Proof.
  revert st; induction kws as [|kw kws IH]; simpl; intros st H;
    [reflexivity|].
  rewrite keyword_without_match by (intros x Hx; apply H; auto).
  apply IH; intros k x Hk Hx; apply H; auto.
Qed.

(** No specialist records a result for unrecognized symptoms. *)
Lemma unrecognized_no_score symptoms item :
  combinations_nonempty specialist_rules = true ->
  unrecognized specialist_rules symptoms = true ->
  In item specialist_rules ->
  score_specialist bonus (snd item) symptoms = None.
Proof.
  intros Hc Hu Hi.
  assert (Hrel : forall ph x,
             In ph (phrases (snd item)) ->
             In x (map normalize_text symptoms) ->
             related (normalize_text ph) x = false).
  { intros ph x Hph Hx.
    apply in_map_iff in Hx as (s & <- & Hs).
    unfold unrecognized in Hu.
    rewrite forallb_forall in Hu; specialize (Hu s Hs).
    rewrite forallb_forall in Hu; specialize (Hu item Hi).
    rewrite forallb_forall in Hu; specialize (Hu ph Hph).
    now apply negb_true_iff in Hu. }
  assert (Hcomb : has_combined_symptoms symptoms
                    (combined_symptoms (snd item)) = false).
  { unfold has_combined_symptoms.
    destruct (existsb _ _) eqn:E; [|reflexivity].
    apply existsb_exists in E as (combo & Hin & Hall).
    unfold combinations_nonempty in Hc.
    rewrite forallb_forall in Hc; specialize (Hc item Hi).
    rewrite forallb_forall in Hc; specialize (Hc combo Hin).
    destruct combo as [|c combo]; [discriminate|].
    simpl in Hall; apply andb_true_iff in Hall as [Hex _].
    apply existsb_exists in Hex as (x & Hx & Hr).
    rewrite Hrel in Hr; [discriminate| |exact Hx].
    unfold phrases; apply in_or_app; right.
    apply in_concat; exists (c :: combo); split; [exact Hin|left; auto]. }
  unfold score_specialist; rewrite Hcomb.
  destruct (get_required_combined (snd item)); [reflexivity|].
  cbn [andb negb].
  rewrite check_individual_none; [reflexivity|].
  intros kw x Hk Hx; apply Hrel; [|exact Hx].
  unfold phrases; apply in_or_app; left; exact Hk.
Qed.

(** Blank and unrecognizable inputs give the fallback. *)
Lemma recommend_doctor_fallback text :
  keywords_visible specialist_rules = true ->
  combinations_nonempty specialist_rules = true ->
  whitespace_only text = true \/
  unrecognized specialist_rules (extract_symptoms specialist_rules text)
  = true ->
  recommend_doctor specialist_rules bonus text = fallback.
Proof.
  intros Hv Hc [Hw|Hu]; unfold recommend_doctor.
  - now rewrite extract_symptoms_blank.
  - unfold match_symptoms_to_specialist.
    destruct (extract_symptoms specialist_rules text) as [|s0 syms];
      [reflexivity|].
    change (specialist_scores specialist_rules bonus (s0 :: syms))
      with (scoring_loop
              (fun item => score_specialist bonus (snd item) (s0 :: syms))
              specialist_rules []).
    rewrite scoring_loop_none; [reflexivity|].
    intros item Hi; apply unrecognized_no_score; assumption.
Qed.

End Fallback.

(** C6, as the code has it.  With the reference table, every empty or
    whitespace-only text, and every text none of whose extracted symptoms
    contains or is contained in a phrase of the table, is given the fallback
    category.  The classifier is a total function on strings. *)
Theorem fallback_on_blank_or_unrecognized (text : string) :
  whitespace_only text = true \/
  unrecognized AddDoctorColumn.specialist_rules
    (AddDoctorColumn.extract_symptoms text) = true ->
  AddDoctorColumn.recommend_doctor text = "General Physician".
Proof.
  intros H.
  apply (recommend_doctor_fallback AddDoctorColumn.specialist_rules
           AddDoctorColumn.bonus text); [vm_compute..|exact H]; reflexivity.
Qed.

(** The three inputs of the specification, and a comma separated one. *)
Lemma fallback_on_blank_or_unrecognized_witness :
  AddDoctorColumn.recommend_doctor "" = "General Physician" /\
  AddDoctorColumn.recommend_doctor "   " = "General Physician" /\
  AddDoctorColumn.recommend_doctor "zzz_not_a_symptom" = "General Physician" /\
  AddDoctorColumn.recommend_doctor "zzz, qqq" = "General Physician".
Proof.
  split; [|split; [|split]].
  - apply fallback_on_blank_or_unrecognized; left; reflexivity.
  - apply fallback_on_blank_or_unrecognized; left; reflexivity.
  - apply fallback_on_blank_or_unrecognized; right; vm_compute; reflexivity.
  - apply fallback_on_blank_or_unrecognized; right; vm_compute; reflexivity.
Defined.

(** C6 as stated fails.  No keyword or combination member of the reference
    table occurs in [zzz,] or in [x, y], yet both are answered
    Pulmonologist: the empty piece after the comma is contained in every
    keyword, and the pieces [x] and [y] are contained in keywords such as
    [excessive_hunger] and [rusty_sputum]. *)
Lemma garbage_is_not_given_the_fallback :
  Spec.no_keyword_occurs AddDoctorColumn.specialist_rules "zzz," = true /\
  AddDoctorColumn.extract_symptoms "zzz," = ["zzz"; ""] /\
  AddDoctorColumn.recommend_doctor "zzz," = "Pulmonologist" /\
  AddDoctorColumn.recommend_doctor "zzz," <> "General Physician" /\
  Spec.no_keyword_occurs AddDoctorColumn.specialist_rules "x, y" = true /\
  AddDoctorColumn.extract_symptoms "x, y" = ["x"; "y"] /\
  AddDoctorColumn.recommend_doctor "x, y" = "Pulmonologist" /\
  AddDoctorColumn.recommend_doctor "x, y" <> "General Physician".
Proof.
  split; [vm_compute; reflexivity|].
  split; [vm_compute; reflexivity|].
  split; [vm_compute; reflexivity|].
  split; [vm_compute; discriminate|].
  split; [vm_compute; reflexivity|].
  split; [vm_compute; reflexivity|].
  split; [vm_compute; reflexivity|].
  vm_compute; discriminate.
Qed.

(** X18.  The same holds with the table of [restructure_csv.py]: every
    empty or whitespace-only text, and every text none of whose extracted
    symptoms contains or is contained in a phrase of that table, is given
    the fallback. *)
Lemma RestructureCsv_fallback (text : string) :
  whitespace_only text = true \/
  unrecognized RestructureCsv.specialist_rules
    (RestructureCsv.extract_symptoms text) = true ->
  RestructureCsv.recommend_doctor text = "General Physician".
Proof.
  intros H.
  apply (recommend_doctor_fallback RestructureCsv.specialist_rules
           RestructureCsv.bonus text); [vm_compute..|exact H]; reflexivity.
Qed.

(** ** The comma separated format *)

Lemma Forall2_map_r {A B} (R : A -> B -> Prop) (f : A -> B) l :
  (forall x, R x (f x)) -> Forall2 R l (map f l).
Proof. intros H; induction l; simpl; constructor; auto. Qed.

(** C7, as the code has it.  Let [t] be the text without its leading and
    trailing quote characters (all of them, not one layer).  When [t] holds
    a comma and none of [.], [!], [?], the extractor returns, in order, the
    pieces of [t] between commas, each without its leading and trailing
    whitespace.  There is one piece more than there are commas: empty
    pieces are kept, like duplicates.  [SymptomDoctorMapper] extracts the
    same list. *)
Theorem structured_extraction (specialist_rules : PyDict.dict Rules)
  (text : string) :
  structured (PyStr.strip_with is_quote text) ->
  let t := PyStr.strip_with is_quote text in
  stripped_of is_quote text t /\
  exists pieces,
    join "," pieces = t /\
    Forall (fun piece => PyStr.mem_char "," piece = false) pieces /\
    List.length pieces = S (count_char "," t) /\
    extract_symptoms specialist_rules text = map PyStr.strip pieces /\
    Forall2 (stripped_of PyStr.isspace) pieces
      (extract_symptoms specialist_rules text) /\
    SymptomDoctorMapper.extract_symptoms text
    = extract_symptoms specialist_rules text.
Proof.
  intros (Hc & Hd & He & Hq) t.
  split; [apply PyStrFacts.strip_with_spec|].
  exists (PyStr.split "," t).
  assert (Hx : extract_symptoms specialist_rules text
               = map PyStr.strip (PyStr.split "," t)).
  { unfold extract_symptoms; fold t.
    cbn [existsb]. fold t in Hc, Hd, He, Hq.
    now rewrite Hc, Hd, He, Hq. }
  assert (Hy : SymptomDoctorMapper.extract_symptoms text
               = map PyStr.strip (PyStr.split "," t)).
  { unfold SymptomDoctorMapper.extract_symptoms; fold t.
    cbn [existsb]. fold t in Hc, Hd, He, Hq.
    now rewrite Hc, Hd, He, Hq. }
  split; [apply PyStrFacts.join_split|].
  split; [apply PyStrFacts.split_no_sep|].
  split; [apply PyStrFacts.split_length|].
  split; [exact Hx|].
  split; [|congruence].
  rewrite Hx; apply Forall2_map_r.
  intros x; apply PyStrFacts.strip_with_spec.
Qed.

Lemma structured_extraction_witness :
  let text := "'joint_pain,  stiff_neck ,,joint_pain'" in
  let t := PyStr.strip_with is_quote text in
  stripped_of is_quote text t /\
  exists pieces,
    join "," pieces = t /\
    Forall (fun piece => PyStr.mem_char "," piece = false) pieces /\
    List.length pieces = S (count_char "," t) /\
    AddDoctorColumn.extract_symptoms text = map PyStr.strip pieces /\
    Forall2 (stripped_of PyStr.isspace) pieces
      (AddDoctorColumn.extract_symptoms text) /\
    SymptomDoctorMapper.extract_symptoms text
    = AddDoctorColumn.extract_symptoms text.
Proof.
  apply (structured_extraction AddDoctorColumn.specialist_rules
           "'joint_pain,  stiff_neck ,,joint_pain'").
  vm_compute; auto.
Defined.

(** C7 as stated fails.  The empty piece of [a,,b] is returned, where the
    specification removes it; and both layers of quotes around [a,b] are
    removed, where the specification removes one. *)
Lemma empty_pieces_are_kept :
  structured (Spec.strip_one_layer "a,,b") /\
  AddDoctorColumn.extract_symptoms "a,,b" = ["a"; ""; "b"] /\
  Spec.structured_pieces "a,,b" = ["a"; "b"] /\
  AddDoctorColumn.extract_symptoms "a,,b" <> Spec.structured_pieces "a,,b" /\
  structured (Spec.strip_one_layer "''a,b''") /\
  AddDoctorColumn.extract_symptoms "''a,b''" = ["a"; "b"] /\
  Spec.structured_pieces "''a,b''" = ["'a"; "b'"].
Proof.
  split; [vm_compute; auto|].
  split; [vm_compute; reflexivity|].
  split; [vm_compute; reflexivity|].
  split; [vm_compute; discriminate|].
  split; [vm_compute; auto|].
  split; vm_compute; reflexivity.
Qed.

(** The pieces of a text made of commas are empty strings.  The empty
    string is contained in every keyword, so each specialist matches all its
    keywords and combinations, and the bonuses give Pulmonologist the
    highest score. *)
Lemma empty_pieces_match_every_keyword :
  AddDoctorColumn.extract_symptoms "," = [""; ""] /\
  unrecognized AddDoctorColumn.specialist_rules [""; ""] = false /\
  AddDoctorColumn.recommend_doctor "," = "Pulmonologist".
Proof. repeat split; vm_compute; reflexivity. Qed.

(** ** The range of the answer and the rule tables *)

(** The answer is the fallback or a key of the table. *)
Lemma recommend_doctor_range (specialist_rules : PyDict.dict Rules)
  (bonus : string -> Z) (text : string) :
  NoDup (PyDict.keys specialist_rules) ->
  recommend_doctor specialist_rules bonus text = fallback \/
  In (recommend_doctor specialist_rules bonus text)
    (PyDict.keys specialist_rules).
Proof.
  intros Hd; unfold recommend_doctor, match_symptoms_to_specialist.
  destruct (extract_symptoms specialist_rules text) as [|s0 syms];
    [left; reflexivity|].
  rewrite (specialist_scores_recorded _ _ _ Hd).
  destruct (recorded _ specialist_rules) as [|x rest] eqn:E;
    [left; reflexivity|right].
  destruct (max_by_key_spec rest x) as (pre & post & Heq & _ & _).
  rewrite <- E in Heq.
  destruct (PyDictFacts.recorded_split _ _ _ _ _ Heq)
    as (before & winner & after & Ht & Hn & _).
  rewrite <- Hn, Ht; unfold PyDict.keys.
  rewrite map_app; apply in_or_app; right; left; reflexivity.
Qed.

(** The rule tables written in the two files have pairwise distinct names,
    positive priorities and no empty combination. *)
Lemma rule_tables_valid :
  Spec.valid_items AddDoctorColumn.specialist_rules_items = true /\
  Spec.valid_items RestructureCsv.specialist_rules_items = true.
Proof. split; vm_compute; reflexivity. Qed.

(** ** Normalization *)

Module NormalizeFacts.
Import PyStr.

Lemma map_chars_map_chars f g s :
  map_chars f (map_chars g s) = map_chars (fun c => f (g c)) s.
Proof. induction s as [|c r IH]; simpl; [reflexivity|now rewrite IH]. Qed.

Lemma map_chars_ext f g s :
  (forall c, f c = g c) -> map_chars f s = map_chars g s.
Proof.
  intros H; induction s as [|c r IH]; simpl; [reflexivity|].
  now rewrite H, IH.
Qed.

(** Lowercasing neither creates nor removes a space or an underscore. *)
Lemma lower_replace_space s :
  lower (replace " " "_" s) = replace " " "_" (lower s).
Proof.
  unfold lower, replace; rewrite !map_chars_map_chars.
  apply map_chars_ext; intros c.
  destruct c as [[] [] [] [] [] [] [] []]; vm_compute; reflexivity.
Qed.

Lemma lower_replace_underscore s :
  lower (replace "_" " " s) = replace "_" " " (lower s).
Proof.
  unfold lower, replace; rewrite !map_chars_map_chars.
  apply map_chars_ext; intros c.
  destruct c as [[] [] [] [] [] [] [] []]; vm_compute; reflexivity.
Qed.

Lemma space_or_underscore c :
  (Ascii.eqb c " " = true -> isspace c = true /\ is_underscore c = false) /\
  (Ascii.eqb c "_" = true -> isspace c = false).
Proof.
  split; intros H; apply Ascii.eqb_eq in H; subst c; vm_compute; auto.
Qed.

(** Both substitutions, after the spaces are spelled as underscores. *)
Lemma sub_runs_spaces_as_underscores s : forall bi bo,
  (bi = true -> bo = true) ->
  sub_runs_from isspace bo
    (sub_runs_from is_underscore bi (replace " " "_" s))
  = sub_runs_from blank bo s.
Proof.
  unfold replace; induction s as [|c r IH]; intros bi bo Hb;
    [reflexivity|].
  cbn [map_chars sub_runs_from]; unfold blank at 1.
  destruct (Ascii.eqb c " ") eqn:Es.
  - destruct (proj1 (space_or_underscore c) Es) as [Hw Hu].
    rewrite Hw; cbn [orb].
    change (is_underscore "_") with true; cbn iota.
    destruct bi.
    + rewrite (Hb eq_refl); apply IH; auto.
    + cbn [sub_runs_from].
      change (isspace " ") with true; cbn iota.
      rewrite (IH true true) by auto.
      destruct bo; reflexivity.
  - destruct (is_underscore c) eqn:Eu.
    + rewrite orb_true_r.
      destruct bi.
      * rewrite (Hb eq_refl); apply IH; auto.
      * cbn [sub_runs_from].
        change (isspace " ") with true; cbn iota.
        rewrite (IH true true) by auto.
        destruct bo; reflexivity.
    + rewrite orb_false_r; cbn [sub_runs_from].
      destruct (isspace c).
      * rewrite (IH false true) by discriminate.
        destruct bo; reflexivity.
      * now rewrite (IH false false) by discriminate.
Qed.

(** Both substitutions, after the underscores are spelled as spaces. *)
Lemma sub_runs_underscores_as_spaces s : forall bi bo,
  sub_runs_from isspace bo
    (sub_runs_from is_underscore bi (replace "_" " " s))
  = sub_runs_from blank bo s.
Proof.
  unfold replace; induction s as [|c r IH]; intros bi bo; [reflexivity|].
  cbn [map_chars sub_runs_from]; unfold blank at 1.
  fold (is_underscore c).
  destruct (is_underscore c) eqn:Eu.
  - rewrite orb_true_r.
    change (is_underscore " ") with false; cbn iota.
    cbn [sub_runs_from].
    change (isspace " ") with true; cbn iota.
    rewrite IH; destruct bo; reflexivity.
  - rewrite Eu, orb_false_r; cbn [sub_runs_from].
    destruct (isspace c); rewrite IH; reflexivity.
Qed.

(** The two spellings of a text have the same normal form. *)
Lemma normalize_text_spelling s :
  normalize_text (replace " " "_" s) = normalize_text (replace "_" " " s).
Proof.
  unfold normalize_text, sub_runs.
  rewrite lower_replace_space, lower_replace_underscore.
  rewrite sub_runs_spaces_as_underscores by auto.
  now rewrite sub_runs_underscores_as_spaces.
Qed.

Lemma all_chars_sub_runs q p s : forall b,
  q " "%char = true ->
  (forall c, p c = false -> q c = true) ->
  all_chars q (sub_runs_from p b s) = true.
Proof.
  induction s as [|c r IH]; intros b Hs Hq; simpl; [reflexivity|].
  destruct (p c) eqn:E.
  - destruct b; simpl; rewrite ?Hs; simpl; auto.
  - simpl; rewrite (Hq c E); simpl; auto.
Qed.

Lemma all_chars_sub_runs_keep q p s : forall b,
  q " "%char = true -> all_chars q s = true ->
  all_chars q (sub_runs_from p b s) = true.
Proof.
  induction s as [|c r IH]; intros b Hs H; simpl; [reflexivity|].
  simpl in H; apply andb_true_iff in H as [Hc Hr].
  destruct (p c).
  - destruct b; simpl; rewrite ?Hs; simpl; auto.
  - simpl; rewrite Hc; simpl; auto.
Qed.

(** A normal form has no underscore. *)
Lemma normalize_text_no_underscore s :
  all_chars (fun c => negb (is_underscore c)) (normalize_text s) = true.
Proof.
  unfold normalize_text, strip, strip_with.
  apply PyStrFacts.all_chars_rstrip, PyStrFacts.all_chars_lstrip.
  apply all_chars_sub_runs_keep; [reflexivity|].
  apply all_chars_sub_runs; [reflexivity|].
  intros c H; now rewrite H.
Qed.

Lemma lstrip_all p s : all_chars p s = true -> lstrip p s = EmptyString.
Proof.
  induction s as [|c r IH]; simpl; [reflexivity|].
  intros H; apply andb_true_iff in H as [Hc Hr]; rewrite Hc; auto.
Qed.

(** The normal form of an empty or whitespace-only text is empty. *)
Lemma normalize_text_blank s :
  whitespace_only s = true -> normalize_text s = EmptyString.
Proof.
  intros H; unfold normalize_text, strip, strip_with.
  rewrite lstrip_all; [reflexivity|].
  apply all_chars_sub_runs_keep; [reflexivity|].
  apply all_chars_sub_runs_keep; [reflexivity|].
  apply PyStrFacts.whitespace_lower, H.
Qed.

End NormalizeFacts.

(** ** The worked examples and the two spellings of a keyword *)

(** C1.  The reference recommender returns Cardiologist, Orthopedic and
    Pulmonologist for the first, second and fourth worked example.  For the
    third, [abnormal_menstruation], it returns the fallback: the text has no
    comma, the free-text branch looks for [abnormal menstruation] in the
    lowercased text, which still has its underscore, and nothing is
    extracted.  [SymptomDoctorMapper], which normalizes the text, returns
    Gynecologist. *)
Theorem worked_examples :
  AddDoctorColumn.recommend_doctor "chest_pain, breathlessness"
  = "Cardiologist" /\
  AddDoctorColumn.recommend_doctor "joint_pain, stiff_neck" = "Orthopedic" /\
  AddDoctorColumn.recommend_doctor "cough, mucoid_sputum" = "Pulmonologist" /\
  AddDoctorColumn.extract_symptoms "abnormal_menstruation" = [] /\
  AddDoctorColumn.recommend_doctor "abnormal_menstruation"
  = "General Physician" /\
  RestructureCsv.recommend_doctor "abnormal_menstruation"
  = "General Physician" /\
  SymptomDoctorMapper.assign_doctor "abnormal_menstruation" = "Gynecologist".
Proof.
  split; [vm_compute; reflexivity|].
  split; [vm_compute; reflexivity|].
  split; [vm_compute; reflexivity|].
  split; [vm_compute; reflexivity|].
  split; [vm_compute; reflexivity|].
  split; vm_compute; reflexivity.
Qed.

(** C5.  The keyword [abnormal_menstruation] of the reference table is
    classified differently in its two spellings: the fallback with the
    underscore, Gynecologist with the space.  [SymptomDoctorMapper] gives
    Gynecologist for both. *)
Theorem spellings_classified_differently :
  let K := "abnormal_menstruation" in
  (exists rules,
      PyDict.get AddDoctorColumn.specialist_rules "Gynecologist"
      = Some rules /\ In K (get_symptoms rules)) /\
  AddDoctorColumn.recommend_doctor (PyStr.replace " " "_" K)
  = "General Physician" /\
  AddDoctorColumn.recommend_doctor (PyStr.replace "_" " " K)
  = "Gynecologist" /\
  SymptomDoctorMapper.assign_doctor (PyStr.replace " " "_" K)
  = "Gynecologist" /\
  SymptomDoctorMapper.assign_doctor (PyStr.replace "_" " " K)
  = "Gynecologist".
Proof.
  split; [eexists; split; [vm_compute; reflexivity|left; reflexivity]|].
  split; [vm_compute; reflexivity|].
  split; [vm_compute; reflexivity|].
  split; vm_compute; reflexivity.
Qed.

(** ** [SymptomDoctorMapper] *)

(** X17.  [assign_doctor] reads the text through [normalize_text] only: the
    two spellings of any text, spaces as underscores or underscores as
    spaces, get the same answer. *)
Lemma assign_doctor_spelling (text : string) :
  SymptomDoctorMapper.assign_doctor (PyStr.replace " " "_" text)
  = SymptomDoctorMapper.assign_doctor (PyStr.replace "_" " " text).
Proof.
  unfold SymptomDoctorMapper.assign_doctor.
  now rewrite NormalizeFacts.normalize_text_spelling.
Qed.

(** X16.  [assign_doctor] gives an empty or whitespace-only text the
    fallback. *)
Lemma assign_doctor_blank (text : string) :
  whitespace_only text = true ->
  SymptomDoctorMapper.assign_doctor text = "General Physician".
Proof.
  intros H; unfold SymptomDoctorMapper.assign_doctor.
  rewrite (NormalizeFacts.normalize_text_blank text H).
  vm_compute; reflexivity.
Qed.

Lemma assign_doctor_examples :
  map SymptomDoctorMapper.assign_doctor
    ["chest_pain, breathlessness"; "joint_pain, stiff_neck";
     "abnormal_menstruation"; "cough, mucoid_sputum";
     ""; "   "; "zzz_not_a_symptom"]
  = ["Cardiologist"; "Orthopedic"; "Gynecologist"; "Pulmonologist";
     "General Physician"; "General Physician"; "General Physician"].
Proof. vm_compute; reflexivity. Qed.

(** The table of the mapper satisfies the three conditions as well. *)
Lemma doctor_rules_valid :
  valid_doctor_items SymptomDoctorMapper.doctor_rules_items = true.
Proof. vm_compute; reflexivity. Qed.

Lemma contains_underscore p s :
  all_chars (fun c => negb (is_underscore c)) s = true ->
  all_chars (fun c => negb (is_underscore c)) p = false ->
  PyStr.contains p s = false.
Proof.
  intros Hs Hp; destruct (PyStr.contains p s) eqn:E; [|reflexivity].
  apply (PyStrFacts.contains_all_chars _ _ _ E) in Hs; congruence.
Qed.

(** X15.  Cardiologist is never the answer of the mapper when none of its
    required combinations occurs in the normalized text: the priority rule
    for chest pain needs one, and the scoring loop skips Cardiologist. *)
Lemma assign_doctor_exclusion (text : string)
  (rules : SymptomDoctorMapper.DoctorRules) :
  In ("Cardiologist", rules) SymptomDoctorMapper.doctor_rules ->
  SymptomDoctorMapper.check_combined_symptoms (normalize_text text)
    (match SymptomDoctorMapper.combined_required rules with
     | Some l => l
     | None => []
     end) = false ->
  SymptomDoctorMapper.assign_doctor text <> "Cardiologist".
Proof.
  intros Hin Hcomb.
  assert (Hd : NoDup (PyDict.keys SymptomDoctorMapper.doctor_rules))
    by apply PyDictFacts.display_NoDup.
  assert (Hrules : SymptomDoctorMapper.combined_required rules
                   = Some [["chest_pain"; "breathlessness"];
                           ["chest_pain"; "sweating"];
                           ["sweating"; "chest_pain"]]).
  { clear - Hin. vm_compute in Hin.
    repeat (destruct Hin as [Hin|Hin]; [discriminate Hin||idtac|]);
      try contradiction.
    injection Hin as <-. reflexivity. }
  assert (Hloop :
            match SymptomDoctorMapper.doctor_scores (normalize_text text) with
            | [] => "General Physician"
            | x :: rest => fst (max_by_key x rest)
            end <> "Cardiologist").
  { change (SymptomDoctorMapper.doctor_scores (normalize_text text))
      with (scoring_loop
              (fun item =>
                 SymptomDoctorMapper.score_doctor (fst item) (snd item)
                   (normalize_text text))
              SymptomDoctorMapper.doctor_rules []).
    rewrite PyDictFacts.scoring_loop_recorded;
      [|exact Hd|intros item _ []].
    cbn [app].
    destruct (recorded _ _) as [|x rest] eqn:E; [discriminate|].
    destruct (max_by_key_spec rest x) as (pre & post & Heq & _ & _).
    rewrite <- E in Heq.
    destruct (PyDictFacts.recorded_split _ _ _ _ _ Heq)
      as (before & winner & after & Ht & Hn & Hw & _ & _).
    destruct winner as [n r]; cbn [fst snd] in Hn, Hw.
    rewrite <- Hn; clear Hn Heq E; intros Hc; subst n.
    assert (r = rules).
    { apply (keys_unique _ "Cardiologist" _ _ Hd); [|exact Hin].
      rewrite Ht; apply in_elt. }
    subst r.
    unfold SymptomDoctorMapper.score_doctor in Hw.
    rewrite Hrules in Hw, Hcomb.
    rewrite Hcomb in Hw; cbn in Hw; discriminate. }
  rewrite Hrules in Hcomb.
  unfold SymptomDoctorMapper.check_combined_symptoms in Hcomb.
  cbn [existsb forallb] in Hcomb.
  change (normalize_text "chest_pain") with "chest pain" in Hcomb.
  change (normalize_text "breathlessness") with "breathlessness" in Hcomb.
  change (normalize_text "sweating") with "sweating" in Hcomb.
  assert (Hu : PyStr.contains "chest_pain" (normalize_text text) = false)
    by (apply contains_underscore;
        [apply NormalizeFacts.normalize_text_no_underscore|reflexivity]).
  unfold SymptomDoctorMapper.assign_doctor; cbv zeta.
  revert Hloop Hcomb Hu; generalize (normalize_text text); intros tl.
  intros Hloop Hcomb Hu.
  repeat match goal with
         | |- (if ?c then _ else _) <> _ =>
             let E := fresh "E" in
             destruct c eqn:E; [try discriminate|]
         end; [|exact Hloop].
  rewrite Hu in E0.
  destruct (PyStr.contains "chest pain" tl),
           (PyStr.contains "breathlessness" tl),
           (PyStr.contains "sweating" tl);
    cbn in Hcomb, E0; discriminate.
Qed.

(* ================================================================== *)
(** * Further properties of the code *)

(** ** The normal form of [normalize_text] *)

Module NormalFormFacts.
Import PyStr.

Lemma all_chars_and p q s :
  all_chars (fun c => p c && q c) s = all_chars p s && all_chars q s.
Proof.
  induction s as [|c r IH]; simpl; [reflexivity|].
  rewrite IH; destruct (p c), (q c), (all_chars p r); reflexivity.
Qed.

Lemma all_chars_impl (p q : ascii -> bool) s :
  (forall c, p c = true -> q c = true) ->
  all_chars p s = true -> all_chars q s = true.
Proof.
  intros H; induction s as [|c r IH]; simpl; [auto|].
  intros Hs; apply andb_true_iff in Hs as [Hc Hr].
  now rewrite (H c Hc), IH.
Qed.

Lemma lower_char_idem c : lower_char (lower_char c) = lower_char c.
Proof. destruct c as [[] [] [] [] [] [] [] []]; vm_compute; reflexivity. Qed.

Lemma lower_char_blank c : blank (lower_char c) = blank c.
Proof. destruct c as [[] [] [] [] [] [] [] []]; vm_compute; reflexivity. Qed.

Lemma lower_idem s : lower (lower s) = lower s.
Proof.
  unfold lower; induction s as [|c r IH]; simpl; [reflexivity|].
  now rewrite lower_char_idem, IH.
Qed.

Lemma lower_fixed s :
  all_chars (fun c => Ascii.eqb (lower_char c) c) s = true -> lower s = s.
Proof.
  unfold lower; induction s as [|c r IH]; simpl; [reflexivity|].
  intros H; apply andb_true_iff in H as [Hc Hr].
  apply Ascii.eqb_eq in Hc; now rewrite Hc, IH.
Qed.

Lemma all_chars_lower s :
  all_chars (fun c => Ascii.eqb (lower_char c) c) (lower s) = true.
Proof.
  unfold lower; induction s as [|c r IH]; simpl; [reflexivity|].
  now rewrite lower_char_idem, Ascii.eqb_refl, IH.
Qed.

(** A substitution leaves a text without characters of the set as it is. *)
Lemma sub_runs_absent p s : forall b,
  all_chars (fun c => negb (p c)) s = true -> sub_runs_from p b s = s.
Proof.
  induction s as [|c r IH]; intros b; simpl; [reflexivity|].
  intros H; apply andb_true_iff in H as [Hc Hr].
  apply negb_true_iff in Hc; rewrite Hc; now rewrite IH.
Qed.

(** The result of a substitution has no two adjacent characters of the
    set, when the space belongs to it. *)
Lemma sub_runs_no_adjacent p s : forall b,
  p " "%char = true -> no_adjacent p b (sub_runs_from p b s) = true.
Proof.
  induction s as [|c r IH]; intros b Hs; simpl; [reflexivity|].
  destruct (p c) eqn:E.
  - destruct b; [auto|].
    simpl; rewrite Hs; simpl; auto.
  - simpl; rewrite E; auto.
Qed.

(** Single spaces stay as they are under the whitespace substitution. *)
Lemma sub_runs_single_spaced s : forall b,
  all_chars (fun c => negb (isspace c) || Ascii.eqb c " ") s = true ->
  no_adjacent isspace b s = true ->
  sub_runs_from isspace b s = s.
Proof.
  induction s as [|c r IH]; intros b; simpl; [reflexivity|].
  intros H Hn; apply andb_true_iff in H as [Hc Hr].
  destruct (isspace c) eqn:E.
  - apply andb_true_iff in Hn as [Hb Hn].
    apply negb_true_iff in Hb; subst b.
    simpl in Hc; apply Ascii.eqb_eq in Hc; subst c.
    now rewrite IH.
  - now rewrite IH.
Qed.

Lemma no_adjacent_lstrip p s : forall b b',
  no_adjacent p b s = true -> no_adjacent p b' (lstrip p s) = true.
Proof.
  induction s as [|c r IH]; intros b b'; simpl; [auto|].
  destruct (p c) eqn:E.
  - intros H; apply andb_true_iff in H as [_ H]; eauto.
  - simpl; rewrite E; auto.
Qed.

Lemma no_adjacent_prefix p a r : forall b,
  no_adjacent p b (a ++ r)%string = true -> no_adjacent p b a = true.
Proof.
  induction a as [|c a IH]; intros b; simpl; [auto|].
  destruct (p c).
  - intros H; apply andb_true_iff in H as [Hb H].
    rewrite Hb; simpl; eauto.
  - eauto.
Qed.

Lemma no_adjacent_rstrip p s b :
  no_adjacent p b s = true -> no_adjacent p b (rstrip p s) = true.
Proof.
  intros H; destruct (PyStrFacts.rstrip_spec p s) as (r & Hs & _).
  rewrite Hs in H; eapply no_adjacent_prefix; eauto.
Qed.

Lemma lstrip_clean p s :
  visible_end (first_char s) = true -> p = isspace -> lstrip p s = s.
Proof.
  intros H ->; destruct s as [|c r]; simpl in *; [reflexivity|].
  apply negb_true_iff in H; now rewrite H.
Qed.

Lemma rstrip_clean s :
  visible_end (last_char s) = true -> rstrip isspace s = s.
Proof.
  induction s as [|c r IH]; simpl; [reflexivity|].
  destruct r as [|d r'].
  - simpl; intros H; apply negb_true_iff in H; now rewrite H.
  - intros H; rewrite IH by exact H; reflexivity.
Qed.

Lemma visible_ends_strip s :
  visible_end (first_char (strip s)) = true /\
  visible_end (last_char (strip s)) = true.
Proof.
  destruct (PyStrFacts.strip_with_spec isspace s)
    as (l & r & _ & _ & _ & Hf & Hl).
  fold (strip s) in Hf, Hl.
  split.
  - destruct (first_char (strip s)) as [c|]; simpl; [|reflexivity].
    now rewrite (Hf c eq_refl).
  - destruct (last_char (strip s)) as [c|]; simpl; [|reflexivity].
    now rewrite (Hl c eq_refl).
Qed.

(** The result of [normalize_text] is in normal form. *)
Lemma normalize_text_is_normal s : is_normal (normalize_text s) = true.
Proof.
  unfold is_normal.
  destruct (visible_ends_strip
              (sub_runs isspace (sub_runs is_underscore (lower s))))
    as [Hf Hl].
  unfold normalize_text; rewrite Hf, Hl, !andb_true_r.
  apply andb_true_iff; split.
  - unfold normal_char; rewrite !all_chars_and.
    unfold strip, strip_with, sub_runs.
    rewrite !andb_true_iff; repeat split.
    + apply PyStrFacts.all_chars_rstrip, PyStrFacts.all_chars_lstrip.
      apply NormalizeFacts.all_chars_sub_runs_keep; [reflexivity|].
      apply NormalizeFacts.all_chars_sub_runs_keep; [reflexivity|].
      apply all_chars_lower.
    + apply PyStrFacts.all_chars_rstrip, PyStrFacts.all_chars_lstrip.
      apply NormalizeFacts.all_chars_sub_runs_keep; [reflexivity|].
      apply NormalizeFacts.all_chars_sub_runs; [reflexivity|].
      intros c H; now rewrite H.
    + apply PyStrFacts.all_chars_rstrip, PyStrFacts.all_chars_lstrip.
      apply NormalizeFacts.all_chars_sub_runs; [reflexivity|].
      intros c H; now rewrite H.
  - unfold strip, strip_with, sub_runs.
    apply no_adjacent_rstrip, (no_adjacent_lstrip _ _ false).
    apply sub_runs_no_adjacent; reflexivity.
Qed.

(** A text in normal form is left as it is. *)
Lemma normalize_text_fixed s : is_normal s = true -> normalize_text s = s.
Proof.
  unfold is_normal, normal_char.
  rewrite !andb_true_iff, !all_chars_and, !andb_true_iff.
  intros [[[[[Hlow Hund] Hsp] Hadj] Hf] Hl].
  unfold normalize_text, sub_runs, strip, strip_with.
  rewrite (lower_fixed s Hlow).
  rewrite (sub_runs_absent is_underscore s false Hund).
  rewrite (sub_runs_single_spaced s false Hsp Hadj).
  rewrite (lstrip_clean isspace s Hf eq_refl).
  apply rstrip_clean, Hl.
Qed.

(** Whitespace after the underscore substitution comes from whitespace and
    underscores. *)
Lemma sub_underscore_whitespace s : forall b,
  all_chars isspace (sub_runs_from is_underscore b s) = true ->
  all_chars blank s = true.
Proof.
  induction s as [|c r IH]; intros b; simpl; [auto|].
  unfold blank at 1.
  destruct (is_underscore c) eqn:E.
  - rewrite orb_true_r; destruct b; simpl; eauto.
  - simpl; rewrite orb_false_r.
    intros H; apply andb_true_iff in H as [Hc H].
    rewrite Hc; eauto.
Qed.

Lemma sub_whitespace_whitespace s : forall b,
  all_chars isspace (sub_runs_from isspace b s) = true ->
  all_chars isspace s = true.
Proof.
  induction s as [|c r IH]; intros b; simpl; [auto|].
  destruct (isspace c) eqn:E.
  - destruct b; simpl; eauto.
  - simpl; rewrite E; discriminate.
Qed.

Lemma all_chars_lower_blank s :
  all_chars blank (lower s) = all_chars blank s.
Proof.
  unfold lower; induction s as [|c r IH]; simpl; [reflexivity|].
  now rewrite lower_char_blank, IH.
Qed.

Lemma strip_empty s : strip s = EmptyString -> all_chars isspace s = true.
Proof.
  intros H.
  destruct (PyStrFacts.strip_with_spec isspace s)
    as (l & r & Hs & Hl & Hr & _).
  fold (strip s) in Hs; rewrite H in Hs; simpl in Hs.
  now rewrite Hs, PyStrFacts.all_chars_app, Hl, Hr.
Qed.

Lemma sub_underscore_blank s : forall b,
  all_chars blank s = true ->
  all_chars isspace (sub_runs_from is_underscore b s) = true.
Proof.
  induction s as [|c r IH]; intros b; simpl; [auto|].
  unfold blank at 1.
  intros H; apply andb_true_iff in H as [Hc Hr].
  destruct (is_underscore c) eqn:E.
  - destruct b; simpl; auto.
  - rewrite orb_false_r in Hc; simpl; rewrite Hc; simpl; auto.
Qed.

End NormalFormFacts.

(** X1.  [normalize_text] is idempotent. *)
Theorem normalize_text_idempotent (text : string) :
  normalize_text (normalize_text text) = normalize_text text.
Proof.
  apply NormalFormFacts.normalize_text_fixed,
    NormalFormFacts.normalize_text_is_normal.
Qed.

(** X2.  The texts that [normalize_text] leaves unchanged are the texts in
    normal form: no uppercase letter, no underscore, no whitespace but single
    spaces between words, no space at either end.  Every result of
    [normalize_text] is one of them. *)
Theorem normalize_text_normal_form (text : string) :
  is_normal (normalize_text text) = true /\
  (normalize_text text = text <-> is_normal text = true).
Proof.
  split; [apply NormalFormFacts.normalize_text_is_normal|].
  split.
  - intros H; rewrite <- H; apply NormalFormFacts.normalize_text_is_normal.
  - apply NormalFormFacts.normalize_text_fixed.
Qed.

(** X3.  The normal form is empty exactly for the texts made of whitespace
    and underscores only. *)
Theorem normalize_text_empty_iff (text : string) :
  normalize_text text = EmptyString <-> all_chars blank text = true.
Proof.
  unfold normalize_text, PyStr.sub_runs; split.
  - intros H.
    apply NormalFormFacts.strip_empty in H.
    apply NormalFormFacts.sub_whitespace_whitespace in H.
    apply NormalFormFacts.sub_underscore_whitespace in H.
    now rewrite NormalFormFacts.all_chars_lower_blank in H.
  - intros H.
    unfold PyStr.strip, PyStr.strip_with.
    rewrite NormalizeFacts.lstrip_all; [reflexivity|].
    apply NormalizeFacts.all_chars_sub_runs_keep; [reflexivity|].
    apply NormalFormFacts.sub_underscore_blank.
    now rewrite NormalFormFacts.all_chars_lower_blank.
Qed.

(** X4.  Spelling the spaces of a text as underscores, or its underscores
    as spaces, gives texts with the same normal form; so does lowercasing
    the text. *)
Theorem normalize_text_spelling_and_case (text : string) :
  normalize_text (PyStr.replace " " "_" text)
  = normalize_text (PyStr.replace "_" " " text) /\
  normalize_text (PyStr.lower text) = normalize_text text.
Proof.
  split; [apply NormalizeFacts.normalize_text_spelling|].
  unfold normalize_text; now rewrite NormalFormFacts.lower_idem.
Qed.

(** ** What the answer of [DoctorRecommender] depends on *)

Lemma existsb_pointwise {A} (f g : A -> bool) l :
  (forall x, f x = g x) -> existsb f l = existsb g l.
Proof.
  intros H; induction l as [|a l IH]; simpl; [reflexivity|].
  now rewrite H, IH.
Qed.

Lemma forallb_pointwise {A} (f g : A -> bool) l :
  (forall x, f x = g x) -> forallb f l = forallb g l.
Proof.
  intros H; induction l as [|a l IH]; simpl; [reflexivity|].
  now rewrite H, IH.
Qed.

Lemma filter_pointwise {A} (f g : A -> bool) l :
  (forall x, f x = g x) -> filter f l = filter g l.
Proof.
  intros H; induction l as [|a l IH]; simpl; [reflexivity|].
  now rewrite H, IH.
Qed.

Lemma map_pointwise {A B} (f g : A -> B) l :
  (forall x, f x = g x) -> map f l = map g l.
Proof.
  intros H; induction l as [|a l IH]; simpl; [reflexivity|].
  now rewrite H, IH.
Qed.

(** A test for some element depends on the members of the list only. *)
Lemma existsb_members {A} (f : A -> bool) l1 l2 :
  (forall x, In x l1 <-> In x l2) -> existsb f l1 = existsb f l2.
Proof.
  intros H.
  destruct (existsb f l1) eqn:E1, (existsb f l2) eqn:E2; try reflexivity.
  - apply existsb_exists in E1 as (x & Hx & Hf).
    assert (E : existsb f l2 = true)
      by (apply existsb_exists; exists x; split; [apply H, Hx|exact Hf]).
    congruence.
  - apply existsb_exists in E2 as (x & Hx & Hf).
    assert (E : existsb f l1 = true)
      by (apply existsb_exists; exists x; split; [apply H, Hx|exact Hf]).
    congruence.
Qed.

Lemma related_empty np : related np EmptyString = true.
Proof. unfold related; destruct np; reflexivity. Qed.

Section Invariance.

Variable specialist_rules : PyDict.dict Rules.
Variable bonus : string -> Z.

(** Two symptom lists that the matching test cannot tell apart get the
    same result from every specialist. *)
Lemma score_specialist_ext rules s1 s2 :
  (forall np,
      existsb (related np) (map normalize_text s1)
      = existsb (related np) (map normalize_text s2)) ->
  score_specialist bonus rules s1 = score_specialist bonus rules s2.
Proof.
  intros H.
  assert (Hc : forall combos,
             has_combined_symptoms s1 combos
             = has_combined_symptoms s2 combos).
  { intros combos; unfold has_combined_symptoms.
    apply existsb_pointwise; intros combo.
    apply forallb_pointwise; intros nc; apply H. }
  unfold score_specialist; rewrite Hc.
  destruct (get_required_combined rules
            && negb (has_combined_symptoms s2 (combined_symptoms rules)));
    [reflexivity|].
  rewrite !check_individual_closed.
  assert (Hm : forall kw,
             pattern_matched (map normalize_text s1) kw
             = pattern_matched (map normalize_text s2) kw)
    by (intros kw; apply H).
  rewrite (filter_pointwise _ _ _ Hm).
  rewrite (map_pointwise (contribution bonus (map normalize_text s1))
             (contribution bonus (map normalize_text s2)));
    [reflexivity|].
  intros kw; unfold contribution; now rewrite Hm.
Qed.

Lemma match_symptoms_ext s1 s2 :
  (forall np,
      existsb (related np) (map normalize_text s1)
      = existsb (related np) (map normalize_text s2)) ->
  (s1 = [] <-> s2 = []) ->
  match_symptoms_to_specialist specialist_rules bonus s1
  = match_symptoms_to_specialist specialist_rules bonus s2.
Proof.
  intros H He.
  assert (Hs : specialist_scores specialist_rules bonus s1
               = specialist_scores specialist_rules bonus s2).
  { unfold specialist_scores.
    generalize (@nil (string * MatchResult)).
    induction specialist_rules as [|item table IH]; intros acc; simpl;
      [reflexivity|].
    now rewrite (score_specialist_ext (snd item) s1 s2 H), IH. }
  unfold match_symptoms_to_specialist; rewrite Hs.
  destruct s1 as [|a s1], s2 as [|b s2]; try reflexivity.
  - destruct He as [He _]; discriminate (He eq_refl).
  - destruct He as [_ He]; discriminate (He eq_refl).
Qed.

(** X5.  The answer depends on the set of normalized symptoms only: the
    order of the symptoms, their repetitions and their spelling (letter
    case, underscores or spaces, extra whitespace) do not matter. *)
Theorem symptoms_are_matched_as_a_set (s1 s2 : list string) :
  (forall x, In x (map normalize_text s1) <-> In x (map normalize_text s2)) ->
  match_symptoms_to_specialist specialist_rules bonus s1
  = match_symptoms_to_specialist specialist_rules bonus s2.
Proof.
  intros H; apply match_symptoms_ext.
  - intros np; apply existsb_members, H.
  - split; intros ->.
    + destruct s2 as [|b s2]; [reflexivity|].
      destruct (proj2 (H (normalize_text b))); simpl; auto.
    + destruct s1 as [|a s1]; [reflexivity|].
      destruct (proj1 (H (normalize_text a))); simpl; auto.
Qed.

(** X8.  A symptom whose normal form is empty (an empty comma piece, or a
    piece of whitespace and underscores) is contained in every keyword:
    it matches every keyword and covers every combination, so the answer
    does not depend on the other symptoms. *)
Theorem empty_symptom_decides (s1 s2 : list string) :
  In EmptyString (map normalize_text s1) ->
  In EmptyString (map normalize_text s2) ->
  (forall rules,
      score_specialist bonus rules s1 = score_specialist bonus rules s2) /\
  match_symptoms_to_specialist specialist_rules bonus s1
  = match_symptoms_to_specialist specialist_rules bonus s2.
Proof.
  intros H1 H2.
  assert (H : forall np,
             existsb (related np) (map normalize_text s1)
             = existsb (related np) (map normalize_text s2)).
  { intros np.
    assert (E : forall l, In EmptyString l -> existsb (related np) l = true)
      by (intros l Hl; apply existsb_exists; exists EmptyString;
          split; [exact Hl|apply related_empty]).
    now rewrite !E. }
  split; [intros rules; apply score_specialist_ext, H|].
  apply match_symptoms_ext; [exact H|].
  split; intros ->; simpl in *; contradiction.
Qed.

(** X7.  With bonuses that are not negative, more symptoms never
    disqualify a specialist and never lower its final score or its match
    count. *)
Theorem more_symptoms_never_lower_a_score (rules : Rules)
  (symptoms more : list string) (f m : Z) :
  (forall p, 0 <= bonus p) ->
  score_specialist bonus rules symptoms = Some (f, m) ->
  exists f' m',
    score_specialist bonus rules (symptoms ++ more) = Some (f', m') /\
    f <= f' /\ m <= m'.
Proof.
  intros Hb.
  set (ns1 := map normalize_text symptoms).
  set (ns2 := map normalize_text (symptoms ++ more)).
  assert (Hmono : forall np,
             existsb (related np) ns1 = true ->
             existsb (related np) ns2 = true).
  { intros np H; subst ns1 ns2.
    now rewrite map_app, existsb_app, H. }
  assert (Hcomb : has_combined_symptoms symptoms (combined_symptoms rules)
                  = true ->
                  has_combined_symptoms (symptoms ++ more)
                    (combined_symptoms rules) = true).
  { unfold has_combined_symptoms; fold ns1 ns2; intros H.
    apply existsb_exists in H as (combo & Hin & Hall).
    apply existsb_exists; exists combo; split; [exact Hin|].
    rewrite forallb_forall in *; intros nc Hnc; apply Hmono, Hall, Hnc. }
  assert (Hsum : forall kws,
             sumZ (map (contribution bonus ns1) kws)
             <= sumZ (map (contribution bonus ns2) kws) /\
             Z.of_nat (List.length (filter (pattern_matched ns1) kws))
             <= Z.of_nat (List.length (filter (pattern_matched ns2) kws))).
  { induction kws as [|kw kws [IH1 IH2]]; simpl; [lia|].
    unfold contribution at 1 3.
    pose proof (Hmono (normalize_text kw)) as Hk.
    fold (pattern_matched ns1 kw) in Hk; fold (pattern_matched ns2 kw) in Hk.
    pose proof (Hb (normalize_text kw)).
    destruct (pattern_matched ns1 kw), (pattern_matched ns2 kw);
      simpl List.length; rewrite ?Nat2Z.inj_succ;
      try (discriminate (Hk eq_refl)); lia. }
  destruct (Hsum (get_symptoms rules)) as [Hs Hl].
  assert (Hsome : forall (x y : Z),
             0 < y ->
             (if y >? 0 then Some (x, y) else @None MatchResult)
             = Some (x, y)).
  { intros x y Hy; apply Z.gtb_lt in Hy; now rewrite Hy. }
  assert (Hopt : forall a b : MatchResult, Some a = Some b -> a = b)
    by (intros a b E; congruence).
  unfold score_specialist; fold ns1 ns2.
  destruct (has_combined_symptoms symptoms (combined_symptoms rules)) eqn:E1.
  - rewrite (Hcomb eq_refl), andb_false_r.
    rewrite !check_individual_closed; cbn [fst snd].
    destruct (_ >? 0) eqn:Hpos; [|discriminate].
    intros E; apply Hopt in E; apply pair_equal_spec in E as [<- <-].
    apply Z.gtb_lt in Hpos.
    eexists; eexists; split; [apply Hsome; lia|lia].
  - destruct (get_required_combined rules); [discriminate|].
    cbn [andb negb].
    rewrite !check_individual_closed; cbn [fst snd].
    destruct (_ >? 0) eqn:Hpos; [|discriminate].
    intros E; apply Hopt in E; apply pair_equal_spec in E as [<- <-].
    apply Z.gtb_lt in Hpos.
    destruct (has_combined_symptoms (symptoms ++ more)
                (combined_symptoms rules));
      cbn [fst snd]; eexists; eexists; (split; [apply Hsome; lia|lia]).
Qed.

End Invariance.

Lemma nonnegative_bonus_add_doctor_column p : 0 <= AddDoctorColumn.bonus p.
Proof.
  unfold AddDoctorColumn.bonus.
  destruct (_ || _); lia.
Qed.

Lemma nonnegative_bonus_restructure_csv p : 0 <= RestructureCsv.bonus p.
Proof.
  unfold RestructureCsv.bonus.
  destruct (_ || _), (PyStr.contains "weakness of one body side" p),
    (PyStr.contains "altered sensorium" p); lia.
Qed.

(** The same symptoms in another order, repeated and spelled otherwise. *)
Lemma symptoms_are_matched_as_a_set_witness :
  AddDoctorColumn.match_symptoms_to_specialist
    ["Chest_Pain"; "breathlessness"]
  = AddDoctorColumn.match_symptoms_to_specialist
      ["breathlessness"; "chest  pain"; "BREATHLESSNESS"; "chest pain"].
Proof.
  apply (symptoms_are_matched_as_a_set AddDoctorColumn.specialist_rules
           AddDoctorColumn.bonus).
  vm_compute; intros x; split; intros H; tauto.
Defined.

(** A trailing comma: the answer for fever is the answer for a headache. *)
Lemma empty_symptom_decides_witness :
  (forall rules,
      score_specialist AddDoctorColumn.bonus rules
        (AddDoctorColumn.extract_symptoms "fever,")
      = score_specialist AddDoctorColumn.bonus rules
          (AddDoctorColumn.extract_symptoms "headache, _ ,nausea")) /\
  AddDoctorColumn.match_symptoms_to_specialist
    (AddDoctorColumn.extract_symptoms "fever,")
  = AddDoctorColumn.match_symptoms_to_specialist
      (AddDoctorColumn.extract_symptoms "headache, _ ,nausea").
Proof.
  apply (empty_symptom_decides AddDoctorColumn.specialist_rules
           AddDoctorColumn.bonus).
  - vm_compute; auto.
  - vm_compute; auto.
Defined.

(** Gastroenterologist with nausea, then with vomiting added. *)
Lemma more_symptoms_never_lower_a_score_witness :
  exists rules,
    PyDict.get AddDoctorColumn.specialist_rules "Gastroenterologist"
    = Some rules /\
    exists f' m',
      score_specialist AddDoctorColumn.bonus rules
        (["nausea"] ++ ["vomiting"]) = Some (f', m') /\
      810 <= f' /\ 1 <= m'.
Proof.
  eexists; split; [vm_compute; reflexivity|].
  apply (more_symptoms_never_lower_a_score AddDoctorColumn.bonus _
           ["nausea"] ["vomiting"] 810 1
           nonnegative_bonus_add_doctor_column).
  vm_compute; reflexivity.
Defined.

(** ** Letter case and surrounding quotes *)

Module CaseFacts.
Import PyStr.

Section MapChars.

Variable f : ascii -> ascii.

Lemma lstrip_map_chars p s :
  (forall c, p (f c) = p c) ->
  lstrip p (map_chars f s) = map_chars f (lstrip p s).
Proof.
  intros H; induction s as [|c r IH]; simpl; [reflexivity|].
  rewrite H; destruct (p c); [exact IH|reflexivity].
Qed.

Lemma rstrip_map_chars p s :
  (forall c, p (f c) = p c) ->
  rstrip p (map_chars f s) = map_chars f (rstrip p s).
Proof.
  intros H; induction s as [|c r IH]; simpl; [reflexivity|].
  rewrite IH, H.
  destruct (rstrip p r); simpl; [destruct (p c)|]; reflexivity.
Qed.

Lemma strip_with_map_chars p s :
  (forall c, p (f c) = p c) ->
  strip_with p (map_chars f s) = map_chars f (strip_with p s).
Proof.
  intros H; unfold strip_with.
  now rewrite lstrip_map_chars, rstrip_map_chars.
Qed.

Lemma mem_char_map_chars x s :
  (forall c, Ascii.eqb (f c) x = Ascii.eqb c x) ->
  mem_char x (map_chars f s) = mem_char x s.
Proof.
  intros H; induction s as [|c r IH]; simpl; [reflexivity|].
  now rewrite H, IH.
Qed.

Lemma split_map_chars sep s :
  (forall c, Ascii.eqb (f c) sep = Ascii.eqb c sep) ->
  split sep (map_chars f s) = map (map_chars f) (split sep s).
Proof.
  intros H; induction s as [|c r IH]; simpl; [reflexivity|].
  rewrite H, IH.
  destruct (Ascii.eqb c sep); [reflexivity|].
  destruct (split sep r); reflexivity.
Qed.

End MapChars.

Lemma lower_char_quote c : is_quote (lower_char c) = is_quote c.
Proof. destruct c as [[] [] [] [] [] [] [] []]; vm_compute; reflexivity. Qed.

Lemma lower_char_space c : isspace (lower_char c) = isspace c.
Proof. destruct c as [[] [] [] [] [] [] [] []]; vm_compute; reflexivity. Qed.

Lemma lower_char_punctuation c :
  Ascii.eqb (lower_char c) "," = Ascii.eqb c "," /\
  Ascii.eqb (lower_char c) "." = Ascii.eqb c "." /\
  Ascii.eqb (lower_char c) "!" = Ascii.eqb c "!" /\
  Ascii.eqb (lower_char c) "?" = Ascii.eqb c "?".
Proof.
  destruct c as [[] [] [] [] [] [] [] []]; vm_compute; auto.
Qed.

Lemma lstrip_app_all p l s :
  all_chars p l = true -> lstrip p (l ++ s)%string = lstrip p s.
Proof.
  induction l as [|c l IH]; simpl; [reflexivity|].
  intros H; apply andb_true_iff in H as [Hc Hl]; rewrite Hc; auto.
Qed.

Lemma rstrip_all p s : all_chars p s = true -> rstrip p s = EmptyString.
Proof.
  induction s as [|c r IH]; simpl; [reflexivity|].
  intros H; apply andb_true_iff in H as [Hc Hr].
  now rewrite IH, Hc.
Qed.

Lemma rstrip_app_all p s r :
  all_chars p r = true -> rstrip p (s ++ r)%string = rstrip p s.
Proof.
  intros H; induction s as [|c s IH]; simpl.
  - now apply rstrip_all.
  - now rewrite IH.
Qed.

Lemma lstrip_app p s r :
  lstrip p (s ++ r)%string =
  if all_chars p s then lstrip p r else (lstrip p s ++ r)%string.
Proof.
  induction s as [|c s IH]; simpl; [reflexivity|].
  destruct (p c); [exact IH|reflexivity].
Qed.

(** Characters of the set around a text do not change what is left after
    stripping. *)
Lemma strip_with_surrounded p l s r :
  all_chars p l = true -> all_chars p r = true ->
  strip_with p (l ++ s ++ r)%string = strip_with p s.
Proof.
  intros Hl Hr; unfold strip_with.
  rewrite lstrip_app_all by exact Hl.
  rewrite lstrip_app.
  destruct (all_chars p s) eqn:E.
  - rewrite (NormalizeFacts.lstrip_all p r Hr).
    now rewrite (NormalizeFacts.lstrip_all p s E).
  - now apply rstrip_app_all.
Qed.

End CaseFacts.

Section TextInvariance.

Variable specialist_rules : PyDict.dict Rules.
Variable bonus : string -> Z.

Lemma normalize_text_lower s :
  normalize_text (PyStr.lower s) = normalize_text s.
Proof. unfold normalize_text; now rewrite NormalFormFacts.lower_idem. Qed.

Lemma match_symptoms_lower l :
  match_symptoms_to_specialist specialist_rules bonus (map PyStr.lower l)
  = match_symptoms_to_specialist specialist_rules bonus l.
Proof.
  apply match_symptoms_ext.
  - intros np; rewrite map_map.
    now rewrite (map_pointwise _ normalize_text l normalize_text_lower).
  - destruct l; simpl; split; intros H; congruence.
Qed.

Lemma split_lower s :
  PyStr.split "," (PyStr.lower s) = map PyStr.lower (PyStr.split "," s).
Proof.
  apply CaseFacts.split_map_chars; intros c.
  apply CaseFacts.lower_char_punctuation.
Qed.

Lemma strip_lower s : PyStr.strip (PyStr.lower s) = PyStr.lower (PyStr.strip s).
Proof.
  apply CaseFacts.strip_with_map_chars, CaseFacts.lower_char_space.
Qed.

Lemma strip_quotes_lower s :
  PyStr.strip_with is_quote (PyStr.lower s)
  = PyStr.lower (PyStr.strip_with is_quote s).
Proof.
  apply CaseFacts.strip_with_map_chars, CaseFacts.lower_char_quote.
Qed.

Lemma mem_char_lower x s :
  In x [","; "."; "!"; "?"]%char ->
  PyStr.mem_char x (PyStr.lower s) = PyStr.mem_char x s.
Proof.
  intros Hx; apply CaseFacts.mem_char_map_chars; intros c.
  destruct (CaseFacts.lower_char_punctuation c) as (H1 & H2 & H3 & H4).
  simpl in Hx; destruct Hx as [<-|[<-|[<-|[<-|[]]]]]; assumption.
Qed.

Lemma recommend_doctor_lower text :
  recommend_doctor specialist_rules bonus (PyStr.lower text)
  = recommend_doctor specialist_rules bonus text.
Proof.
  unfold recommend_doctor, extract_symptoms.
  rewrite strip_quotes_lower.
  set (t := PyStr.strip_with is_quote text).
  cbn [existsb].
  rewrite !mem_char_lower by (simpl; auto 6).
  destruct (PyStr.mem_char "," t
            && negb (PyStr.mem_char "." t
                     || (PyStr.mem_char "!" t
                         || (PyStr.mem_char "?" t || false)))).
  - rewrite split_lower, map_map.
    rewrite (map_pointwise
               (fun x => PyStr.strip (PyStr.lower x))
               (fun x => PyStr.lower (PyStr.strip x)) _ strip_lower).
    rewrite <- (map_map PyStr.strip PyStr.lower).
    apply match_symptoms_lower.
  - now rewrite NormalFormFacts.lower_idem.
Qed.

(** X6.  Letter case is ignored: two texts that are equal once lowercased
    get the same answer, from [DoctorRecommender] with any table and from
    [SymptomDoctorMapper]. *)
Theorem letter_case_is_ignored (a b : string) :
  PyStr.lower a = PyStr.lower b ->
  recommend_doctor specialist_rules bonus a
  = recommend_doctor specialist_rules bonus b /\
  SymptomDoctorMapper.assign_doctor a = SymptomDoctorMapper.assign_doctor b.
Proof.
  intros H; split.
  - now rewrite <- (recommend_doctor_lower a), H, recommend_doctor_lower.
  - unfold SymptomDoctorMapper.assign_doctor.
    now rewrite <- (normalize_text_lower a), H, normalize_text_lower.
Qed.

(** X9.  Quote characters around the text, in any number, do not change
    the answer of [DoctorRecommender]. *)
Theorem surrounding_quotes_are_ignored (ql qr text : string) :
  all_chars is_quote ql = true ->
  all_chars is_quote qr = true ->
  extract_symptoms specialist_rules (ql ++ text ++ qr)%string
  = extract_symptoms specialist_rules text /\
  recommend_doctor specialist_rules bonus (ql ++ text ++ qr)%string
  = recommend_doctor specialist_rules bonus text.
Proof.
  intros Hl Hr.
  assert (E : extract_symptoms specialist_rules (ql ++ text ++ qr)%string
              = extract_symptoms specialist_rules text)
    by (unfold extract_symptoms;
        now rewrite (CaseFacts.strip_with_surrounded is_quote ql text qr)).
  split; [exact E|].
  unfold recommend_doctor; now rewrite E.
Qed.

End TextInvariance.

Lemma letter_case_is_ignored_witness :
  AddDoctorColumn.recommend_doctor "Chest_Pain, BREATHLESSNESS"
  = AddDoctorColumn.recommend_doctor "chest_pain, Breathlessness" /\
  SymptomDoctorMapper.assign_doctor "Chest_Pain, BREATHLESSNESS"
  = SymptomDoctorMapper.assign_doctor "chest_pain, Breathlessness".
Proof.
  apply (letter_case_is_ignored AddDoctorColumn.specialist_rules
           AddDoctorColumn.bonus).
  vm_compute; reflexivity.
Defined.

Lemma surrounding_quotes_are_ignored_witness :
  AddDoctorColumn.extract_symptoms "''cough, phlegm'"
  = AddDoctorColumn.extract_symptoms "cough, phlegm" /\
  AddDoctorColumn.recommend_doctor "''cough, phlegm'"
  = AddDoctorColumn.recommend_doctor "cough, phlegm".
Proof.
  apply (surrounding_quotes_are_ignored AddDoctorColumn.specialist_rules
           AddDoctorColumn.bonus "''" "'" "cough, phlegm");
    vm_compute; reflexivity.
Defined.

(** ** The range of the answers *)

(** The answer of a scoring loop followed by [max] is the default or a key
    of the table. *)
Lemma scoring_answer_in_keys {B} (score : string * B -> option MatchResult)
  (table : PyDict.dict B) (default : string) :
  NoDup (PyDict.keys table) ->
  In (match scoring_loop score table [] with
      | [] => default
      | x :: rest => fst (max_by_key x rest)
      end)
     (default :: PyDict.keys table).
Proof.
  intros Hd.
  rewrite PyDictFacts.scoring_loop_recorded; [|exact Hd|intros item _ []].
  cbn [app].
  destruct (recorded score table) as [|x rest] eqn:E; [left; reflexivity|].
  right.
  destruct (max_by_key_spec rest x) as (pre & post & Heq & _ & _).
  rewrite <- E in Heq.
  destruct (PyDictFacts.recorded_split _ _ _ _ _ Heq)
    as (before & winner & after & Ht & Hn & _).
  rewrite <- Hn, Ht; unfold PyDict.keys.
  rewrite map_app; apply in_or_app; right; left; reflexivity.
Qed.

(** X10.  With the table of [add_doctor_column.py] the answer is always one
    of its twelve specialists; with the table of [restructure_csv.py] it is
    one of its eleven, which do not include Gynecologist. *)
Theorem answer_is_a_specialist_of_the_table (text : string) :
  In (AddDoctorColumn.recommend_doctor text)
    ["Cardiologist"; "Neurologist"; "Pulmonologist"; "Gastroenterologist";
     "Dermatologist"; "ENT"; "Orthopedic"; "Endocrinologist"; "Urologist";
     "Gynecologist"; "Psychiatrist"; "General Physician"] /\
  In (RestructureCsv.recommend_doctor text)
    ["Cardiologist"; "Neurologist"; "Pulmonologist"; "Gastroenterologist";
     "Dermatologist"; "ENT"; "Orthopedic"; "Endocrinologist"; "Urologist";
     "Psychiatrist"; "General Physician"].
Proof.
  split.
  - destruct (recommend_doctor_range AddDoctorColumn.specialist_rules
                AddDoctorColumn.bonus text AddDoctorColumn_keys_distinct)
      as [H|H].
    + unfold AddDoctorColumn.recommend_doctor; rewrite H.
      vm_compute; tauto.
    + exact H.
  - destruct (recommend_doctor_range RestructureCsv.specialist_rules
                RestructureCsv.bonus text RestructureCsv_keys_distinct)
      as [H|H].
    + unfold RestructureCsv.recommend_doctor; rewrite H.
      vm_compute; tauto.
    + exact H.
Qed.

(** X11.  [assign_doctor] returns one of the [ALLOWED_DOCTORS], for every
    text. *)
Theorem assign_doctor_is_allowed (text : string) :
  In (SymptomDoctorMapper.assign_doctor text)
    SymptomDoctorMapper.ALLOWED_DOCTORS.
Proof.
  assert (Hloop : forall tl,
             In (match SymptomDoctorMapper.doctor_scores tl with
                 | [] => "General Physician"
                 | x :: rest => fst (max_by_key x rest)
                 end)
                SymptomDoctorMapper.ALLOWED_DOCTORS).
  { intros tl.
    pose proof (scoring_answer_in_keys
                  (fun item =>
                     SymptomDoctorMapper.score_doctor (fst item) (snd item) tl)
                  SymptomDoctorMapper.doctor_rules "General Physician"
                  (PyDictFacts.display_NoDup _)) as H.
    change (scoring_loop _ SymptomDoctorMapper.doctor_rules [])
      with (SymptomDoctorMapper.doctor_scores tl) in H.
    revert H.
    generalize (match SymptomDoctorMapper.doctor_scores tl with
                | [] => "General Physician"
                | x :: rest => fst (max_by_key x rest)
                end).
    intros s H; vm_compute in H; vm_compute; tauto. }
  unfold SymptomDoctorMapper.assign_doctor; cbv zeta.
  generalize (normalize_text text); intros tl.
  repeat match goal with
         | |- In (if ?c then _ else _) _ =>
             destruct c; [vm_compute; tauto|]
         end.
  apply Hloop.
Qed.

(** ** The drivers: rows and the doctor distribution *)

Lemma get_set {V} (d : PyDict.dict V) k v k0 :
  PyDict.get (PyDict.set d k v) k0
  = if String.eqb k k0 then Some v else PyDict.get d k0.
Proof.
  induction d as [|[k' v'] d IH]; simpl.
  - reflexivity.
  - destruct (String.eqb k' k) eqn:E; simpl.
    + apply String.eqb_eq in E; subst k'.
      destruct (String.eqb k k0); reflexivity.
    + rewrite IH.
      destruct (String.eqb k' k0) eqn:E0; [|reflexivity].
      apply String.eqb_eq in E0; subst k0.
      rewrite String.eqb_sym, E; reflexivity.
Qed.

(** One more for a doctor adds one to the total. *)
Lemma sum_after_increment (d : PyDict.dict Z) k :
  sumZ (map snd (PyDict.set d k (PyDict.get_default d k 0 + 1)))
  = sumZ (map snd d) + 1.
Proof.
  unfold PyDict.get_default.
  induction d as [|[k' v'] d IH]; simpl; [reflexivity|].
  destruct (String.eqb k' k); simpl; lia.
Qed.

Lemma count_loop_spec rows : forall counts,
  NoDup (PyDict.keys counts) ->
  NoDup (PyDict.keys (SymptomDoctorMapper.count_loop rows counts)) /\
  (forall d,
      PyDict.get_default (SymptomDoctorMapper.count_loop rows counts) d 0
      = PyDict.get_default counts d 0
        + count_doctor d (map row_doctor rows)) /\
  (forall d,
      In d (PyDict.keys (SymptomDoctorMapper.count_loop rows counts))
      <-> In d (PyDict.keys counts) \/ In d (map row_doctor rows)) /\
  sumZ (map snd (SymptomDoctorMapper.count_loop rows counts))
  = sumZ (map snd counts) + Z.of_nat (List.length rows).
Proof.
  induction rows as [|row rows IH]; intros counts Hd.
  - simpl; repeat split; try tauto; try lia; auto.
  - cbn [SymptomDoctorMapper.count_loop map List.length count_doctor].
    set (counts' := PyDict.set counts (row_doctor row)
                      (PyDict.get_default counts (row_doctor row) 0 + 1)).
    destruct (IH counts' (PyDictFacts.set_NoDup _ _ _ Hd))
      as (Hn & Hg & Hk & Hs).
    split; [exact Hn|].
    split; [|split].
    + intros d; rewrite Hg.
      unfold counts', PyDict.get_default at 1; rewrite get_set.
      destruct (String.eqb (row_doctor row) d) eqn:E.
      * apply String.eqb_eq in E; subst d; lia.
      * fold (PyDict.get_default counts d 0); lia.
    + intros d; rewrite Hk; unfold counts'.
      rewrite PyDictFacts.keys_set; simpl; intuition congruence.
    + rewrite Hs; unfold counts'; rewrite sum_after_increment.
      rewrite Nat2Z.inj_succ; lia.
Qed.

Lemma mapper_read_loop_spec events : forall rows n,
  match SymptomDoctorMapper.read_loop events rows n with
  | Exhausted rows' n' =>
      exists texts,
        events = map text_row texts /\
        rows' = rows ++ map (fun t =>
                               mkOutputRow t
                                 (SymptomDoctorMapper.assign_doctor t))
                          texts /\
        n' = n + Z.of_nat (List.length texts)
  | Raised rows' n' =>
      exists texts e rest,
        events = map text_row texts ++ e :: rest /\
        (e = ReaderRaises \/ e = Row None) /\
        rows' = rows ++ map (fun t =>
                               mkOutputRow t
                                 (SymptomDoctorMapper.assign_doctor t))
                          texts /\
        n' = n + Z.of_nat (List.length texts)
  end.
Proof.
  induction events as [|e events IH]; intros rows n.
  - simpl; exists []; simpl; rewrite app_nil_r; repeat split; lia.
  - destruct e as [|[t|]].
    + simpl; exists [], ReaderRaises, events; simpl.
      rewrite app_nil_r; repeat split; auto; lia.
    + cbn [SymptomDoctorMapper.read_loop].
      specialize (IH (rows ++ [mkOutputRow t
                                 (SymptomDoctorMapper.assign_doctor t)])
                    (n + 1)).
      destruct (SymptomDoctorMapper.read_loop events _ _) as [r' n'|r' n'].
      * destruct IH as (texts & e & rest & He & Hc & Hr & Hn).
        exists (t :: texts), e, rest; subst events; simpl.
        rewrite <- app_assoc in Hr; simpl in Hr.
        repeat split; auto; lia.
      * destruct IH as (texts & He & Hr & Hn).
        exists (t :: texts); subst events; simpl.
        rewrite <- app_assoc in Hr; simpl in Hr.
        repeat split; auto; lia.
    + simpl; exists [], (Row None), events; simpl.
      rewrite app_nil_r; repeat split; auto; lia.
Qed.

(** X12.  The driver of [restructure_symptom_dataset.py] reaches the end of
    its [try] block exactly when the file opens, every step of the reader
    yields a row with a text, and the output is written.  It has then built
    one row per row read, in order, with the text unchanged and the doctor
    assigned to it; [rows_processed] is the number of rows; and the
    distribution has one entry per doctor that occurs, holding the number of
    rows of that doctor, the entries adding up to the number of rows.  In
    every other case (file not found, a reader error, a row without a text,
    a failed write) it ends in its [except] clause. *)
Theorem doctor_distribution_counts (input : InputFile)
  (write_succeeds : bool) :
  match SymptomDoctorMapper.restructure_csv input write_succeeds with
  | SymptomDoctorMapper.Finished rows rows_processed counts =>
      write_succeeds = true /\
      (exists fieldnames,
          input = Opened fieldnames
                    (map (fun row => text_row (row_text row)) rows)) /\
      Forall (fun row =>
                row_doctor row
                = SymptomDoctorMapper.assign_doctor (row_text row)) rows /\
      rows_processed = Z.of_nat (List.length rows) /\
      NoDup (PyDict.keys counts) /\
      (forall d,
          PyDict.get_default counts d 0
          = count_doctor d (map row_doctor rows)) /\
      (forall d, In d (PyDict.keys counts) <-> In d (map row_doctor rows)) /\
      sumZ (map snd counts) = Z.of_nat (List.length rows)
  | SymptomDoctorMapper.Aborted =>
      input = NotFound \/
      write_succeeds = false \/
      exists fieldnames events,
        input = Opened fieldnames events /\
        (In ReaderRaises events \/ In (Row None) events)
  end.
Proof.
  unfold SymptomDoctorMapper.restructure_csv.
  destruct input as [|fieldnames events]; [left; reflexivity|].
  pose proof (mapper_read_loop_spec events [] 0) as H.
  destruct (SymptomDoctorMapper.read_loop events [] 0) as [rows n|rows n].
  - destruct H as (texts & e & rest & He & Hc & _).
    right; right; exists fieldnames, events; split; [reflexivity|].
    rewrite He.
    destruct Hc as [-> | ->]; [left|right]; apply in_elt.
  - destruct write_succeeds; [|right; left; reflexivity].
    destruct H as (texts & He & Hr & Hn); simpl in Hr, Hn.
    destruct (count_loop_spec rows [] (NoDup_nil _)) as (Hd & Hg & Hk & Hs).
    subst rows events n.
    split; [reflexivity|].
    split; [exists fieldnames; now rewrite map_map|].
    split; [apply Forall_forall; intros row Hin;
            apply in_map_iff in Hin as (t & <- & _); reflexivity|].
    rewrite length_map in *.
    split; [reflexivity|].
    split; [exact Hd|].
    split; [intros d; rewrite Hg; reflexivity|].
    split; [intros d; rewrite Hk; simpl; tauto|].
    exact Hs.
Qed.




(** ** Edge inputs *)

(** X14.  With the two tables of [DoctorRecommender], symptoms that include
    one with an empty normal form (a trailing comma, two commas in a row, a
    piece of underscores) are answered Pulmonologist, whatever the other
    symptoms are. *)
Theorem empty_piece_gives_pulmonologist (symptoms : list string) :
  In EmptyString (map normalize_text symptoms) ->
  AddDoctorColumn.match_symptoms_to_specialist symptoms = "Pulmonologist" /\
  RestructureCsv.match_symptoms_to_specialist symptoms = "Pulmonologist".
Proof.
  intros Hin.
  assert (H : forall np,
             existsb (related np) (map normalize_text symptoms)
             = existsb (related np) (map normalize_text [EmptyString])).
  { intros np.
    assert (E : forall l, In EmptyString l -> existsb (related np) l = true)
      by (intros l Hl; apply existsb_exists; exists EmptyString;
          split; [exact Hl|apply related_empty]).
    rewrite !E; [reflexivity|left; reflexivity|exact Hin]. }
  assert (He : symptoms = [] <-> [EmptyString] = [])
    by (split; intros E; [subst; destruct Hin|discriminate]).
  split.
  - unfold AddDoctorColumn.match_symptoms_to_specialist.
    rewrite (match_symptoms_ext _ _ symptoms [EmptyString] H He).
    vm_compute; reflexivity.
  - unfold RestructureCsv.match_symptoms_to_specialist.
    rewrite (match_symptoms_ext _ _ symptoms [EmptyString] H He).
    vm_compute; reflexivity.
Qed.

(** Fever with a trailing comma. *)
Lemma empty_piece_gives_pulmonologist_witness :
  AddDoctorColumn.recommend_doctor "fever," = "Pulmonologist" /\
  RestructureCsv.recommend_doctor "fever," = "Pulmonologist".
Proof.
  apply (empty_piece_gives_pulmonologist ["fever"; ""]).
  vm_compute; auto.
Defined.

Lemma assign_doctor_exclusion_witness :
  SymptomDoctorMapper.assign_doctor "chest_pain, headache" <> "Cardiologist".
Proof.
  assert (Hin : exists rules,
             In ("Cardiologist", rules) SymptomDoctorMapper.doctor_rules /\
             SymptomDoctorMapper.check_combined_symptoms
               (normalize_text "chest_pain, headache")
               (match SymptomDoctorMapper.combined_required rules with
                | Some l => l
                | None => []
                end) = false).
  { eexists; split; [vm_compute; right; left; reflexivity|].
    vm_compute; reflexivity. }
  destruct Hin as (rules & Hin & Hcomb).
  exact (assign_doctor_exclusion "chest_pain, headache" rules Hin Hcomb).
Defined.

Lemma assign_doctor_blank_witness :
  SymptomDoctorMapper.assign_doctor "   " = "General Physician".
Proof. apply assign_doctor_blank; reflexivity. Defined.

Lemma RestructureCsv_fallback_witness :
  RestructureCsv.recommend_doctor "   " = "General Physician" /\
  RestructureCsv.recommend_doctor "zzz, qqq" = "General Physician".
Proof.
  split.
  - apply RestructureCsv_fallback; left; reflexivity.
  - apply RestructureCsv_fallback; right; vm_compute; reflexivity.
Defined.
